(** * Threads-PrimeNumbers: the benchmark drivers under [analysis/]

    A shallow embedding of [analysis/find_opt_threads.py] (the thread sweep
    with early stopping) and of the speedup computation of
    [analysis/benchmark_and_plot.py], with the properties of their
    specification proved about it.

    Modelling conventions.
    - Python [int] is [Z] (unbounded), and [int()] reads numerals of any
      length.  Python [float] values (means, gains, the tolerance [1e-9],
      [min_gain]) are exact rationals [Q]; [math.inf] is a separate
      constructor.  IEEE-754 rounding is not modelled.
    - A Python [str] is a list of code points below 256 ([list ascii]); the
      character classes below are the ones of CPython restricted to that
      range.
    - The external [java] process is an oracle giving, for the k-th
      invocation of a run and its thread argument, the completed process.
    - [print] appends a structured event to the output log of the world.
    - Exceptions are values of [exn]; a computation returns [Ok] or [Raise]. *)

From Stdlib Require Import Ascii String List ZArith QArith Lia Lqa Bool.
From Stdlib Require Import Sorted Permutation.
Import ListNotations.

(** ** Python strings *)

Module PyStr.

Definition str := list ascii.

Definition lit (s : string) : str := list_ascii_of_string s.

Definition code (c : ascii) : N := N_of_ascii c.

(** [str.isdecimal] on one character, also the class [\d] of [re] and the
    digits accepted by [int()]. *)
Definition is_decimal (c : ascii) : bool :=
  ((48 <=? code c) && (code c <=? 57))%N.

(** [str.isdigit] on one character: the decimal digits and the superscript
    digits U+00B2, U+00B3, U+00B9. *)
Definition is_digit_char (c : ascii) : bool :=
  is_decimal c
  || (code c =? 178)%N || (code c =? 179)%N || (code c =? 185)%N.

(** [str.isspace] on one character, also the class [\s] of [re]. *)
Definition is_space (c : ascii) : bool :=
  (((9 <=? code c) && (code c <=? 13))
   || ((28 <=? code c) && (code c <=? 32))
   || (code c =? 133) || (code c =? 160))%N.

(** The line boundaries of [str.splitlines]. *)
Definition is_linebreak (c : ascii) : bool :=
  (((10 <=? code c) && (code c <=? 13))
   || ((28 <=? code c) && (code c <=? 30))
   || (code c =? 133))%N.

Definition digit_val (c : ascii) : Z := Z.of_N (code c) - 48.

(** [s.isdigit()] *)
Definition isdigit (s : str) : bool :=
  match s with
  | [] => false
  | _ => forallb is_digit_char s
  end.

Fixpoint lstrip (s : str) : str :=
  match s with
  | [] => []
  | c :: r => if is_space c then lstrip r else s
  end.

Definition rstrip (s : str) : str := rev (lstrip (rev s)).

(** [s.strip()] *)
Definition strip (s : str) : str := rstrip (lstrip s).

(** [s.split()]: the maximal runs of non-space characters; [cur] is the
    run being read. *)
Fixpoint split_from (cur : str) (s : str) : list str :=
  match s with
  | [] => match cur with [] => [] | _ => [cur] end
  | c :: r =>
      if is_space c
      then match cur with
           | [] => split_from [] r
           | _ => cur :: split_from [] r
           end
      else split_from (cur ++ [c]) r
  end.

Definition split (s : str) : list str := split_from [] s.

(** [s.splitlines()]: a carriage return followed by a line feed is one
    boundary, and no empty line is produced after the last boundary. *)
Fixpoint splitlines_from (cur : str) (s : str) : list str :=
  match s with
  | [] => match cur with [] => [] | _ => [cur] end
  | c :: r =>
      if is_linebreak c
      then match r with
           | c2 :: r2 =>
               if ((code c =? 13) && (code c2 =? 10))%N
               then cur :: splitlines_from [] r2
               else cur :: splitlines_from [] r
           | [] => cur :: splitlines_from [] r
           end
      else splitlines_from (cur ++ [c]) r
  end.

Definition splitlines (s : str) : list str := splitlines_from [] s.

(** [l[-1]], [None] standing for the [IndexError] of an empty list. *)
Fixpoint last_item {A : Type} (l : list A) : option A :=
  match l with
  | [] => None
  | [x] => Some x
  | _ :: r => last_item r
  end.

(** [tok.endswith("ms")] *)
Definition endswith_ms (s : str) : bool :=
  match rev s with
  | c2 :: c1 :: _ => ((code c1 =? 109) && (code c2 =? 115))%N
  | _ => false
  end.

(** [tok.replace("ms", "")]: every occurrence, scanning left to right. *)
Fixpoint replace_ms (s : str) : str :=
  match s with
  | [] => []
  | c :: r =>
      match r with
      | c2 :: r2 =>
          if ((code c =? 109) && (code c2 =? 115))%N
          then replace_ms r2
          else c :: replace_ms r
      | [] => [c]
      end
  end.

(** The digits of an [int()] literal after the sign: decimal digits, with
    single underscores allowed between two digits. *)
Fixpoint int_body (acc : Z) (after_digit : bool) (s : str) : option Z :=
  match s with
  | [] => if after_digit then Some acc else None
  | c :: r =>
      if is_decimal c then int_body (10 * acc + digit_val c) true r
      else if ((code c =? 95)%N && after_digit)%bool then
        match r with
        | [] => None
        | _ => int_body acc false r
        end
      else None
  end.

(** [int(s)] in base 10, [None] standing for [ValueError]. *)
Definition py_int (s : str) : option Z :=
  match strip s with
  | [] => None
  | c :: r =>
      if (code c =? 43)%N then int_body 0 false r
      else if (code c =? 45)%N then option_map Z.opp (int_body 0 false r)
      else int_body 0 false (c :: r)
  end.

(** The longest prefix of decimal digits and what follows it. *)
Fixpoint span_decimal (s : str) : str * str :=
  match s with
  | [] => ([], [])
  | c :: r =>
      if is_decimal c
      then let (ds, rest) := span_decimal r in (c :: ds, rest)
      else ([], s)
  end.

(** The pattern [(\d+)\s*ms] matched at the start of [s]; the result is
    group 1.  Both quantifiers are greedy, and giving back a digit or a
    space never lets ["ms"] match, so the greedy run decides. *)
Definition match_ms_here (s : str) : option str :=
  let (ds, rest) := span_decimal s in
  match ds with
  | [] => None
  | _ =>
      match lstrip rest with
      | c1 :: c2 :: _ =>
          if ((code c1 =? 109) && (code c2 =? 115))%N then Some ds else None
      | _ => None
      end
  end.

(** What a match of [(\d+)\s*ms] at the start of [s] with group 1 equal to
    [g] is, whatever the order in which the matcher tries the lengths of
    the two runs. *)
Definition matches_ms_here (s g : str) : Prop :=
  exists sp rest,
    g <> [] /\ forallb is_decimal g = true
    /\ forallb is_space sp = true
    /\ s = g ++ sp ++ lit "ms" ++ rest.

(** [re.search(r"(\d+)\s*ms", s)]: the leftmost match, as its group 1. *)
Fixpoint re_search_ms (s : str) : option str :=
  match s with
  | [] => None
  | _ :: r =>
      match match_ms_here s with
      | Some g => Some g
      | None => re_search_ms r
      end
  end.

End PyStr.

(** ** Python values, exceptions and the world *)

Module Py.

Import PyStr.

(** The two messages of the [RuntimeError]s raised by [run_java]. *)
Inductive runtime_msg : Type :=
| Falha_na_execucao_Java
| Nao_consegui_extrair_ms (line : str).

Inductive exn : Type :=
| RuntimeError (m : runtime_msg)
| IndexError
| ValueError
| ZeroDivisionError
| StatisticsError
| SystemExit (status : Z).

Inductive result (A : Type) : Type :=
| Ok (a : A)
| Raise (e : exn).

Arguments Ok {A} a.
Arguments Raise {A} e.

(** A float that is a rational or [math.inf]. *)
Inductive fl : Type :=
| Fin (q : Q)
| Inf.

(** The non-negative real whose square is [radicand]: the value of
    [math.sqrt] on a non-negative rational, kept exact. *)
Record root : Type := Sqrt { radicand : Q }.

(** [subprocess.run(cmd, capture_output=True, text=True)] *)
Record completed_process : Type := {
  returncode : Z;
  stdout : str;
  stderr : str
}.

(** One row of [records] in [sweep_threads]. *)
Record record : Type := {
  threads : Z;
  run_idx : Z;
  ms : Z
}.

(** What [print] writes, one constructor per call site of
    [find_opt_threads.py] (lines 85-87, 117, 122, 125, 129, 138, 142,
    144), with the values that are formatted into the line. *)
Inductive event : Type :=
| PExecError (t : Z) (out err : str)
| PThreads (t : Z)
| PIter (i iters v : Z)
| PStats (mean_t : Q) (std_t : root)
| PNewBest (mean_t gain : Q)
| PGainContinue (min_gain : Q)
| PNoGain (min_gain : Q) (no_improve patience : Z)
| PEarlyStop.

(** The world of a run: the thread argument of every [java] process
    started so far, oldest first, and everything printed so far. *)
Record world : Type := {
  calls : list Z;
  out : list event
}.

Definition w0 : world := {| calls := []; out := [] |}.

(** Computations that read and extend the world and may raise. *)
Definition M (A : Type) : Type := world -> world * result A.

Definition ret {A : Type} (a : A) : M A := fun w => (w, Ok a).

Definition raise {A : Type} (e : exn) : M A := fun w => (w, Raise e).

Definition bind {A B : Type} (m : M A) (k : A -> M B) : M B :=
  fun w =>
    match m w with
    | (w', Ok a) => k a w'
    | (w', Raise e) => (w', Raise e)
    end.

Definition lift {A : Type} (r : result A) : M A := fun w => (w, r).

Definition print (e : event) : M unit :=
  fun w => ({| calls := calls w; out := out w ++ [e] |}, Ok tt).

Declare Scope py_scope.
Delimit Scope py_scope with py.

Notation "x <- m ;; k" := (bind m (fun x => k))
  (at level 61, m at next level, right associativity) : py_scope.
Notation "' pat <- m ;; k" := (bind m (fun x => match x with pat => k end))
  (at level 61, pat pattern, m at next level, right associativity) : py_scope.
Notation "m ;;; k" := (bind m (fun _ => k))
  (at level 61, right associativity) : py_scope.

(** [range(lo, hi)] *)
Definition py_range (lo hi : Z) : list Z :=
  map (fun k => (lo + Z.of_nat k)%Z) (seq 0 (Z.to_nat (hi - lo))).

Definition Qlt_bool (a b : Q) : bool := negb (Qle_bool b a).

(** [a < b] with [b] possibly infinite. *)
Definition lt_fl (a : Q) (b : fl) : bool :=
  match b with
  | Fin q => Qlt_bool a q
  | Inf => true
  end.

(** [a / b] on floats. *)
Definition py_div (a b : Q) : result Q :=
  if Qeq_bool b 0 then Raise ZeroDivisionError else Ok (a / b).

Definition sumZ (xs : list Z) : Z := fold_right Z.add 0%Z xs.

Definition len {A : Type} (xs : list A) : Z := Z.of_nat (length xs).

(** The mean of a non-empty sample, as a rational. *)
Definition meanQ (xs : list Z) : Q := inject_Z (sumZ xs) / inject_Z (len xs).

(** [statistics.mean(data)] *)
Definition mean (xs : list Z) : result Q :=
  match xs with
  | [] => Raise StatisticsError
  | _ => Ok (meanQ xs)
  end.

Definition sumQ (xs : list Q) : Q := fold_right Qplus 0 xs.

(** The sum of the squared deviations from [mu]. *)
Definition sum_sq_dev (mu : Q) (xs : list Z) : Q :=
  sumQ (map (fun x => (inject_Z x - mu) * (inject_Z x - mu)) xs).

(** [statistics.pvariance(data)]: the squared deviations from the mean
    divided by the number of samples. *)
Definition pvariance (xs : list Z) : Q :=
  sum_sq_dev (meanQ xs) xs / inject_Z (len xs).


(** [statistics.pstdev(data)]: the square root of [pvariance]. *)
Definition pstdev (xs : list Z) : result root :=
  match xs with
  | [] => Raise StatisticsError
  | _ => Ok (Sqrt (pvariance xs))
  end.

End Py.

(** ** analysis/find_opt_threads.py *)

Module FindOptThreads.

Import PyStr Py.
Local Open Scope py_scope.

(** Lines 93-96: the last token that is a number or ends in ["ms"], with
    ["ms"] removed, read as an integer.  [None] stands for any exception
    raised inside the [try] (the [IndexError] of an empty token list, the
    [ValueError] of [int]). *)
Definition ms_token (line : str) : option str :=
  last_item (filter (fun tok => isdigit tok || endswith_ms tok) (split line)).

Definition try_tokens (line : str) : option Z :=
  match ms_token line with
  | None => None
  | Some tok => py_int (replace_ms tok)
  end.

(** Lines 93-103: the token reading and, when it raised, the regular
    expression. *)
Definition parse_ms (line : str) : result Z :=
  match try_tokens line with
  | Some ms_val => Ok ms_val
  | None =>
      match re_search_ms line with
      | None => Raise (RuntimeError (Nao_consegui_extrair_ms line))
      | Some g =>
          match py_int g with
          | Some v => Ok v
          | None => Raise ValueError
          end
      end
  end.

(** Line 90: [res.stdout.strip().splitlines()[-1]], outside the [try]. *)
Definition last_line (out : str) : result str :=
  match last_item (splitlines (strip out)) with
  | None => Raise IndexError
  | Some line => Ok line
  end.

(** Lines 84-103 on a completed process, without the printing. *)
Definition outcome (res : completed_process) : result Z :=
  if negb (returncode res =? 0)%Z
  then Raise (RuntimeError Falha_na_execucao_Java)
  else match last_line (stdout res) with
       | Raise e => Raise e
       | Ok line => parse_ms line
       end.

(** The tolerance [1e-9] of line 127. *)
Definition eps : Q := 1 # 1000000000.

(** The variables of the loop of [sweep_threads] that outlive one level. *)
Record loop_state : Type := {
  records : list record;
  best_mean : fl;
  no_improve : Z
}.

Definition init_state : loop_state :=
  {| records := []; best_mean := Inf; no_improve := 0 |}.

Section WithProcess.

(** The completed process of the k-th invocation (from 0) of this run,
    started with the given thread count.  The class path, the main class,
    the data file and the output file of the command line are fixed, so
    they are part of the oracle. *)
Variable java : nat -> Z -> completed_process.

(** Line 83 *)
Definition subprocess_run (t : Z) : M completed_process :=
  fun w =>
    ({| calls := calls w ++ [t]; out := out w |},
     Ok (java (length (calls w)) t)).

(** Lines 76-103 *)
Definition run_java (t : Z) : M Z :=
  res <- subprocess_run t ;;
  if negb (returncode res =? 0)%Z
  then print (PExecError t (stdout res) (stderr res)) ;;;
       raise (RuntimeError Falha_na_execucao_Java)
  else line <- lift (last_line (stdout res)) ;;
       lift (parse_ms line).

(** Lines 118-122: the trials of one level; [idxs] are the run indices
    still to do. *)
Fixpoint collect (t iters : Z) (idxs : list Z)
    (times : list Z) (recs : list record) : M (list Z * list record) :=
  match idxs with
  | [] => ret (times, recs)
  | i :: rest =>
      v <- run_java t ;;
      print (PIter i iters v) ;;;
      collect t iters rest (times ++ [v])
        (recs ++ [{| threads := t; run_idx := i; ms := v |}])
  end.

(** Lines 123-125 *)
Definition level_stats (times : list Z) : M (Q * root) :=
  mean_t <- lift (mean times) ;;
  std_t <- (if (1 <? len times)%Z then lift (pstdev times)
            else ret (Sqrt 0)) ;;
  print (PStats mean_t std_t) ;;;
  ret (mean_t, std_t).

(** Lines 127-145: the new state and whether the loop breaks. *)
Definition early_stop_rule (patience : Z) (min_gain : Q)
    (recs : list record) (mean_t : Q) (st : loop_state)
  : M (loop_state * bool) :=
  if lt_fl (mean_t + eps) (best_mean st) then
    gain <- match best_mean st with
            | Fin b => lift (py_div (b - mean_t) b)
            | Inf => ret 1
            end ;;
    print (PNewBest mean_t gain) ;;;
    ret ({| records := recs; best_mean := Fin mean_t; no_improve := 0 |},
         false)
  else
    gain <- match best_mean st with
            | Fin b => lift (py_div (b - mean_t) b)
            | Inf => ret 0
            end ;;
    if Qle_bool min_gain gain then
      print (PGainContinue min_gain) ;;;
      ret ({| records := recs; best_mean := best_mean st; no_improve := 0 |},
           false)
    else
      let n := (no_improve st + 1)%Z in
      print (PNoGain min_gain n patience) ;;;
      if (patience <=? n)%Z then
        print PEarlyStop ;;;
        ret ({| records := recs; best_mean := best_mean st;
                no_improve := n |}, true)
      else
        ret ({| records := recs; best_mean := best_mean st;
                no_improve := n |}, false).

(** Lines 116-145: the body of the loop over the levels. *)
Definition level_body (iters patience : Z) (min_gain : Q) (t : Z)
    (st : loop_state) : M (loop_state * bool) :=
  print (PThreads t) ;;;
  ' (times, recs) <-
      collect t iters (py_range 1 (iters + 1)) [] (records st) ;;
  ' (mean_t, _) <- level_stats times ;;
  early_stop_rule patience min_gain recs mean_t st.

(** Line 115: the loop over the levels [ts]; the flag says whether it was
    left by [break]. *)
Fixpoint levels_loop (iters patience : Z) (min_gain : Q) (ts : list Z)
    (st : loop_state) : M (loop_state * bool) :=
  match ts with
  | [] => ret (st, false)
  | t :: rest =>
      ' (st', stop) <- level_body iters patience min_gain t st ;;
      if stop then ret (st', true)
      else levels_loop iters patience min_gain rest st'
  end.

(** Lines 105-148; the data frame is the list of its rows. *)
Definition sweep_threads (iters tmin tmax patience : Z) (min_gain : Q)
  : M (list record) :=
  ' (st, _) <- levels_loop iters patience min_gain
                 (py_range tmin (tmax + 1)) init_state ;;
  ret (records st).

End WithProcess.

(** What [run_java] prints for a completed process: lines 85-87. *)
Definition exec_error_events (t : Z) (res : completed_process) : list event :=
  if negb (returncode res =? 0)%Z
  then [PExecError t (stdout res) (stderr res)]
  else [].

(** The number denoted by a string of decimal digits. *)
Definition decimal_value (ds : str) : Z :=
  fold_left (fun acc c => (10 * acc + digit_val c)%Z) ds 0%Z.





(** A level of mean [mean_t] fails the comparison of line 127 and the one
    of line 137 against the finite best mean [b]. *)
Definition fails_both_checks (min_gain b mean_t : Q) : Prop :=
  ~ mean_t + eps < b /\ ~ b == 0 /\ ~ min_gain <= (b - mean_t) / b.


(** The deviation that line 124 computes. *)
Definition std_of (times : list Z) : root :=
  if (1 <? len times)%Z then Sqrt (pvariance times) else Sqrt 0.

(** The number (from 0) of the invocation that makes trial [i] of level
    [u], when [k0] invocations came before level [t0] and every level from
    [t0] on makes its [iters] trials. *)
Definition call_index (k0 : nat) (iters t0 u i : Z) : nat :=
  (k0 + Z.to_nat ((u - t0) * iters + (i - 1)))%nat.

(** Every trial of the levels [t0 <= u < hi] returns the value [v u i]. *)
Definition trials_return (java : nat -> Z -> completed_process)
    (k0 : nat) (iters t0 hi : Z) (v : Z -> Z -> Z) : Prop :=
  forall u i, (t0 <= u < hi)%Z -> (1 <= i <= iters)%Z ->
    outcome (java (call_index k0 iters t0 u i) u) = Ok (v u i).



(** The rows appended for level [t] by the trials of indices [idxs] that
    returned [vs]. *)
Definition rows (t : Z) (idxs vs : list Z) : list record :=
  map (fun iv => {| threads := t; run_idx := fst iv; ms := snd iv |})
      (combine idxs vs).

(** What these trials print. *)
Definition iter_events (iters : Z) (idxs vs : list Z) : list event :=
  map (fun iv => PIter (fst iv) iters (snd iv)) (combine idxs vs).

(** The rows that the trials of level [t] append when they return the
    values [vs], in order: run indices from 1. *)
Definition sample_set (t : Z) (vs : list Z) : list record :=
  rows t (py_range 1 (len vs + 1)) vs.

(** What a level prints before the rule of lines 127-145 runs. *)
Definition level_events (iters t : Z) (vs : list Z) : list event :=
  PThreads t :: iter_events iters (py_range 1 (iters + 1)) vs
  ++ [PStats (meanQ vs) (std_of vs)].




End FindOptThreads.

(** ** analysis/benchmark_and_plot.py: the speedup of [plot_results] *)

Module BenchmarkAndPlot.

Import PyStr Py.

(** One row of [out/results.csv]. *)
Record row : Type := {
  timestamp : Z;
  version : str;
  threads : Z;
  ms : Z
}.

(** A group key of [groupby(["version", "threads"])]. *)
Definition key : Type := (str * Z)%type.

Fixpoint str_eqb (a b : str) : bool :=
  match a, b with
  | [], [] => true
  | c :: a', d :: b' => (code c =? code d)%N && str_eqb a' b'
  | _, _ => false
  end.

(** Strings compared by code points, as [str.__lt__]. *)
Fixpoint str_ltb (a b : str) : bool :=
  match a, b with
  | _, [] => false
  | [], _ :: _ => true
  | c :: a', d :: b' =>
      (code c <? code d)%N || ((code c =? code d)%N && str_ltb a' b')
  end.

Definition key_eqb (k1 k2 : key) : bool :=
  str_eqb (fst k1) (fst k2) && (snd k1 =? snd k2)%Z.

Definition key_ltb (k1 k2 : key) : bool :=
  str_ltb (fst k1) (fst k2)
  || (str_eqb (fst k1) (fst k2) && (snd k1 <? snd k2)%Z).

Fixpoint insert_sorted (k : key) (ks : list key) : list key :=
  match ks with
  | [] => [k]
  | h :: r => if key_ltb k h then k :: ks else h :: insert_sorted k r
  end.

Definition add_key (ks : list key) (k : key) : list key :=
  if existsb (key_eqb k) ks then ks else insert_sorted k ks.

Definition row_key (r : row) : key := (version r, threads r).

(** The distinct group keys, in increasing order. *)
Definition group_keys (df : list row) : list key :=
  fold_left add_key (map row_key df) [].

(** Line 183: one row per group, holding the mean of its [ms]. *)
Definition groupby_mean (df : list row) : list (key * Q) :=
  map (fun k =>
         (k, meanQ (map ms (filter (fun r => key_eqb (row_key r) k) df))))
      (group_keys df).

(** An element of a [float64] series. *)
Inductive npfloat : Type :=
| NFin (q : Q)
| NPosInf
| NNegInf
| NNaN.

(** [a / b] on [float64]: no exception, a zero divisor gives an infinity
    or a NaN. *)
Definition np_div (a b : Q) : npfloat :=
  if Qeq_bool b 0 then
    if Qeq_bool a 0 then NNaN
    else if Qle_bool 0 a then NPosInf else NNegInf
  else NFin (a / b).

Definition seq_key : key := (lit "seq", 1%Z).

(** Lines 183-191: the speedup of every group, in the order of [agg];
    [sys.exit(2)] when the sequential baseline is missing. *)
Definition speedup (df : list row) : result (list (key * npfloat)) :=
  let agg := groupby_mean df in
  let seq_row := filter (fun km => key_eqb (fst km) seq_key) agg in
  match seq_row with
  | [] => Raise (SystemExit 2)
  | (_, seq_mean) :: _ =>
      Ok (map (fun km => (fst km, np_div seq_mean (snd km))) agg)
  end.

End BenchmarkAndPlot.

(** ** Concrete processes and runs *)

Module Examples.

Import PyStr Py FindOptThreads.

Definition nl : str := ["010"%char].

(** A process that printed [text] and a line feed and exited with 0. *)
Definition printed (text : string) : completed_process :=
  {| returncode := 0; stdout := lit text ++ nl; stderr := [] |}.

(** A process that crashed. *)
Definition crashed : completed_process :=
  {| returncode := 1; stdout := []; stderr := lit "Exception in thread main" |}.


(** The run of the specification's scenario: the time that every trial
    of a level prints. *)
Definition scenario_line (t : Z) : string :=
  match t with
  | 1%Z => "Paralelo (1 threads): 1000 ms"
  | 2%Z => "Paralelo (2 threads): 600 ms"
  | 3%Z => "Paralelo (3 threads): 590 ms"
  | 4%Z => "Paralelo (4 threads): 592 ms"
  | _ => "Paralelo (5 threads): 591 ms"
  end.

Definition scenario_java : nat -> Z -> completed_process :=
  fun _ t => printed (scenario_line t).














(** A results file with two sequential runs and runs with 5 and 10
    threads. *)
Definition results_csv : list BenchmarkAndPlot.row :=
  [ BenchmarkAndPlot.Build_row 1 (lit "seq") 1 1000;
    BenchmarkAndPlot.Build_row 2 (lit "par") 5 300;
    BenchmarkAndPlot.Build_row 3 (lit "seq") 1 1100;
    BenchmarkAndPlot.Build_row 4 (lit "par") 10 200;
    BenchmarkAndPlot.Build_row 5 (lit "par") 5 320 ]%Z.
End Examples.

(** ** Statements of the specification that the code is compared with *)

Module SpecStatements.

Import PyStr Py FindOptThreads.



End SpecStatements.

(** ** analysis/find_opt_threads.py: what [main] and [plot_thread_sweep]
    compute from the rows of the sweep *)

Module FindOptReport.

Import PyStr Py FindOptThreads.

Fixpoint insert_level (t : Z) (ts : list Z) : list Z :=
  match ts with
  | [] => [t]
  | h :: r => if (t <? h)%Z then t :: ts else h :: insert_level t r
  end.

Definition add_level (ts : list Z) (t : Z) : list Z :=
  if existsb (Z.eqb t) ts then ts else insert_level t ts.

(** The group keys of [df.groupby("threads")]: the distinct levels of the
    rows, in increasing order. *)
Definition levels_of (df : list record) : list Z :=
  fold_left add_level (map threads df) [].

(** The column [ms] of the group of level [t], in the order of the rows. *)
Definition level_times (df : list record) (t : Z) : list Z :=
  map ms (filter (fun r => (threads r =? t)%Z) df).

(** Line 211: one row per level, with the mean of its times. *)
Definition groupby_mean (df : list record) : list (Z * Q) :=
  map (fun t => (t, meanQ (level_times df t))) (levels_of df).

(** [Series.idxmin] along the rows after [best]: the first row that holds
    the minimum. *)
Fixpoint first_min (best : Z * Q) (l : list (Z * Q)) : Z * Q :=
  match l with
  | [] => best
  | x :: r =>
      if Qlt_bool (snd x) (snd best) then first_min x r
      else first_min best r
  end.

(** Lines 206-214 of [main], on the rows that [sweep_threads] returned:
    [sys.exit(2)] for an empty frame, else [(best_t, best_ms)].  The
    [ValueError] is the one of [idxmin] on an empty series. *)
Definition report_optimum (df : list record) : result (Z * Q) :=
  match df with
  | [] => Raise (SystemExit 2)
  | _ :: _ =>
      match groupby_mean df with
      | [] => Raise ValueError
      | x :: r => Ok (first_min x r)
      end
  end.





(** What [main] prints after the sweep: line 207, and lines 215-216 with
    the values formatted into them. *)
Inductive main_event : Type :=
| PNoData
| PResult (best_t : Z) (best_ms : Q).

(** Lines 204-216 of [main]: the sweep, then the report on its rows.  The
    world is the one of the sweep; the lines that [main] prints itself are
    returned beside it. *)
Definition sweep_and_report (java : nat -> Z -> completed_process)
    (iters tmin tmax patience : Z) (min_gain : Q) (w : world)
  : world * list main_event * result (Z * Q) :=
  match sweep_threads java iters tmin tmax patience min_gain w with
  | (w', Raise e) => (w', [], Raise e)
  | (w', Ok df) =>
      match df with
      | [] => (w', [PNoData], Raise (SystemExit 2))
      | _ :: _ =>
          match report_optimum df with
          | Ok (best_t, best_ms) =>
              (w', [PResult best_t best_ms], Ok (best_t, best_ms))
          | Raise e => (w', [], Raise e)
          end
      end
  end.

(** The rows of complete levels: level [u] of [ts] with the values of its
    trials, as long as there are values. *)
Definition rows_of_levels (ts : list Z) (vss : list (list Z))
  : list record :=
  concat (map (fun uvs => sample_set (fst uvs) (snd uvs)) (combine ts vss)).
End FindOptReport.

(** ** More concrete runs *)

Module MoreExamples.

Import PyStr Py FindOptThreads.

(** The scenario swept over the levels 1 to 5. *)
Definition scenario_run : world * result (list record) :=
  sweep_threads Examples.scenario_java 3 1 5 2 (2 # 100) w0.

Definition scenario_rows : list record :=
  match snd scenario_run with
  | Ok df => df
  | Raise _ => []
  end.

End MoreExamples.

(** ** The order of the groups of [benchmark_and_plot.py] *)

Module PlotOrder.

Import PyStr Py BenchmarkAndPlot.

(** The order in which [groupby] lists the group keys. *)
Definition klt (k1 k2 : key) : Prop := key_ltb k1 k2 = true.

End PlotOrder.

(** ** [benchmark_and_plot.py]: the runs of the benchmark *)

Module BenchRun.

Import PyStr Py.

Definition ITERATIONS : Z := 10.

(** The command of [bench_once], lines 118-120: the main class, the mode,
    the output file (its name inside [OUT_DIR]) and the thread count when
    there is one.  The class path and the input file are the same in
    every command. *)
Record command : Type := {
  main_class : str;
  mode : str;
  output : str;
  nthreads : option Z
}.

(** The three loops of [run_benchmark]. *)
Inductive scenario : Type :=
| SEQ
| PAR5
| PAR10.

(** What [bench_once] and the loops of [run_benchmark] print. *)
Inductive bevent : Type :=
| BExecError (c : command) (out err : str)
| BLine (line : str)
| BIter (s : scenario) (i n : Z).

(** The commands run so far and the lines printed so far. *)
Record bworld : Type := {
  runs : list command;
  shown : list bevent
}.

Definition b0 : bworld := {| runs := []; shown := [] |}.

Definition BM (A : Type) : Type := bworld -> bworld * result A.

Definition bret {A : Type} (a : A) : BM A := fun w => (w, Ok a).

Definition braise {A : Type} (e : exn) : BM A := fun w => (w, Raise e).

Definition bbind {A B : Type} (m : BM A) (k : A -> BM B) : BM B :=
  fun w =>
    match m w with
    | (w', Ok a) => k a w'
    | (w', Raise e) => (w', Raise e)
    end.

Definition blift {A : Type} (r : result A) : BM A := fun w => (w, r).

Definition bprint (e : bevent) : BM unit :=
  fun w => ({| runs := runs w; shown := shown w ++ [e] |}, Ok tt).

Declare Scope bench_scope.
Delimit Scope bench_scope with bench.

Notation "x <- m ;; k" := (bbind m (fun x => k))
  (at level 61, m at next level, right associativity) : bench_scope.
Notation "m ;;; k" := (bbind m (fun _ => k))
  (at level 61, right associativity) : bench_scope.

(** Line 129: the last line of the output, or the empty string when the
    output is blank. *)
Definition shown_line (out : str) : result str :=
  match strip out with
  | [] => Ok []
  | _ :: _ =>
      match last_item (splitlines (strip out)) with
      | None => Raise IndexError
      | Some line => Ok line
      end
  end.

Section WithProcess.

(** [java k c]: what the [k]-th process started (from 0) does when it is
    started with the command [c]. *)
Variable java : nat -> command -> completed_process.

(** [run_command], lines 97-102. *)
Definition run_command (c : command) : BM completed_process :=
  fun w => ({| runs := runs w ++ [c]; shown := shown w |},
            Ok (java (length (runs w)) c)).

Local Open Scope bench_scope.

(** [bench_once], lines 113-131. *)
Definition bench_once (mc md output_path : str) (threads : option Z)
  : BM bool :=
  let cmd := {| main_class := mc; mode := md; output := output_path;
                nthreads := threads |} in
  res <- run_command cmd ;;
  if negb (returncode res =? 0)%Z then
    bprint (BExecError cmd (stdout res) (stderr res)) ;;;
    bret false
  else
    line <- blift (shown_line (stdout res)) ;;
    bprint (BLine line) ;;;
    bret true.

(** One of the loops of lines 143-158, over the indices [idxs]. *)
Fixpoint bench_loop (s : scenario) (mc md output_path : str)
    (threads : option Z) (idxs : list Z) : BM unit :=
  match idxs with
  | [] => bret tt
  | i :: rest =>
      bprint (BIter s i ITERATIONS) ;;;
      ok <- bench_once mc md output_path threads ;;
      if negb ok then braise (SystemExit 2)
      else bench_loop s mc md output_path threads rest
  end.

(** Lines 143-158 of [run_benchmark]: the three loops. *)
Definition benchmark_runs (mc : str) : BM unit :=
  bench_loop SEQ mc (lit "seq") (lit "primes_seq.txt") None
    (py_range 1 (ITERATIONS + 1)) ;;;
  bench_loop PAR5 mc (lit "par") (lit "primes_t5.txt") (Some 5%Z)
    (py_range 1 (ITERATIONS + 1)) ;;;
  bench_loop PAR10 mc (lit "par") (lit "primes_t10.txt") (Some 10%Z)
    (py_range 1 (ITERATIONS + 1)).

End WithProcess.

(** The commands of a benchmark in which no run fails, in order. *)
Definition seq_command (mc : str) : command :=
  {| main_class := mc; mode := lit "seq"; output := lit "primes_seq.txt";
     nthreads := None |}.

Definition par_command (mc : str) (n : Z) (file : string) : command :=
  {| main_class := mc; mode := lit "par"; output := lit file;
     nthreads := Some n |}.

Definition plan (mc : str) : list command :=
  repeat (seq_command mc) 10
  ++ repeat (par_command mc 5 "primes_t5.txt") 10
  ++ repeat (par_command mc 10 "primes_t10.txt") 10.

(** The runs from the first on that exit with status 0: the number of
    runs before the first failure among the commands [cs], when [k] runs
    came before. *)
Fixpoint good_runs (java : nat -> command -> completed_process)
    (k : nat) (cs : list command) : nat :=
  match cs with
  | [] => 0
  | c :: rest =>
      if (returncode (java k c) =? 0)%Z
      then S (good_runs java (S k) rest)
      else 0
  end.

(** A computation that runs the commands [cs] in order and stops with
    [sys.exit(2)] after the first one that fails. *)
Definition runs_in_order (java : nat -> command -> completed_process)
    (m : BM unit) (cs : list command) : Prop :=
  forall w,
    exists sh,
      m w
      = ({| runs := runs w
                    ++ firstn (S (good_runs java (length (runs w)) cs)) cs;
            shown := sh |},
         if (good_runs java (length (runs w)) cs <? length cs)%nat
         then Raise (SystemExit 2) else Ok tt).

End BenchRun.

(** ** [detect_main_class] of the two scripts *)

Module DetectMain.

Import PyStr Py.

(** The four files that the functions look at. *)
Inductive path : Type :=
| TargetAppMainClass
| TargetSrcMainClass
| SrcAppMainJava
| SrcMainJava.

(** The file system: which of the files exist, and what [read_text]
    gives; [None] stands for an exception of [read_text]. *)
Record filesystem : Type := {
  path_exists : path -> bool;
  read_text : path -> option str
}.

(** [s.startswith(p)] *)
Fixpoint startswith (p s : str) : bool :=
  match p, s with
  | [], _ => true
  | _ :: _, [] => false
  | a :: p', b :: s' => (code a =? code b)%N && startswith p' s'
  end.

(** [p in s] *)
Fixpoint contains (p s : str) : bool :=
  startswith p s
  || match s with
     | [] => false
     | _ :: s' => contains p s'
     end.

(** [text.splitlines()[0].strip()]; [None] stands for the [IndexError]
    of a text without lines. *)
Definition first_line (text : str) : option str :=
  match splitlines text with
  | [] => None
  | l :: _ => Some (strip l)
  end.

Definition app_main : str := lit "app.Main".
Definition src_main : str := lit "src.Main".

(** The [try] block on the file [m]: [Some c] when it returns [c], [None]
    when it falls through or an exception is swallowed.  The test on the
    first line is [str.startswith] in one script and [in] in the other. *)
Definition inspect (test : str -> str -> bool) (fs : filesystem)
    (m : path) : option str :=
  match read_text fs m with
  | None => None
  | Some text =>
      match first_line text with
      | None => None
      | Some first =>
          if test (lit "package app") first then Some app_main
          else if test (lit "package src") first then Some src_main
          else None
      end
  end.

Module Fot.

(** Lines 51-59 of [find_opt_threads.py]: the loop over the candidates. *)
Fixpoint candidates_loop (fs : filesystem) (ms : list path) : option str :=
  match ms with
  | [] => None
  | m :: rest =>
      if path_exists fs m then
        match inspect startswith fs m with
        | Some c => Some c
        | None => candidates_loop fs rest
        end
      else candidates_loop fs rest
  end.

(** [detect_main_class] of [find_opt_threads.py], lines 41-60. *)
Definition detect_main_class (fs : filesystem) : str :=
  if path_exists fs TargetAppMainClass then app_main
  else if path_exists fs TargetSrcMainClass then src_main
  else match candidates_loop fs [SrcAppMainJava; SrcMainJava] with
       | Some c => c
       | None => app_main
       end.

End Fot.

Module Bap.

(** [detect_main_class] of [benchmark_and_plot.py], lines 44-74. *)
Definition detect_main_class (fs : filesystem) : str :=
  if path_exists fs TargetAppMainClass then app_main
  else if path_exists fs TargetSrcMainClass then src_main
  else
    let main_java :=
      if negb (path_exists fs SrcAppMainJava) then SrcMainJava
      else SrcAppMainJava in
    if path_exists fs main_java then
      match inspect contains fs main_java with
      | Some c => c
      | None => app_main
      end
    else app_main.

End Bap.

End DetectMain.

(** * Properties *)

(** ** Facts about the string functions *)

Module PyStrFacts.

Import PyStr.

Lemma decimal_not_space (c : ascii) :
  is_decimal c = true -> is_space c = false.
Proof.
  destruct c as [[] [] [] [] [] [] [] []]; intros H;
    first [discriminate H | reflexivity].
Qed.


Lemma decimal_code (c : ascii) :
  is_decimal c = true -> (48 <= code c <= 57)%N.
Proof.
  unfold is_decimal. intros H. apply andb_prop in H as [H1 H2].
  apply N.leb_le in H1. apply N.leb_le in H2. lia.
Qed.











Lemma lstrip_spaces (sp s : str) :
  forallb is_space sp = true -> lstrip (sp ++ s) = lstrip s.
Proof.
  induction sp as [|a sp IH]; simpl; [reflexivity|].
  intros H. apply andb_prop in H as [Ha Hsp]. rewrite Ha. auto.
Qed.

Lemma forallb_rev {A : Type} (f : A -> bool) (l : list A) :
  forallb f (rev l) = forallb f l.
Proof.
  induction l as [|a l IH]; [reflexivity|].
  simpl. rewrite forallb_app, IH. simpl.
  rewrite andb_true_r. apply andb_comm.
Qed.

(** A string without spaces is its own [strip]. *)
Lemma strip_nonspace (s : str) :
  forallb (fun c => negb (is_space c)) s = true -> strip s = s.
Proof.
  intros H. unfold strip, rstrip.
  assert (L : forall u, forallb (fun c => negb (is_space c)) u = true ->
                        lstrip u = u).
  { intros [|a u] Hu; [reflexivity|]. simpl in *.
    apply andb_prop in Hu as [Ha _].
    apply negb_true_iff in Ha. rewrite Ha. reflexivity. }
  rewrite (L s H), L, rev_involutive; [reflexivity|].
  rewrite forallb_rev. exact H.
Qed.

Lemma decimal_nonspace (ds : str) :
  forallb is_decimal ds = true ->
  forallb (fun c => negb (is_space c)) ds = true.
Proof.
  intros H. apply forallb_forall. intros c Hc.
  rewrite forallb_forall in H.
  rewrite (decimal_not_space c (H c Hc)). reflexivity.
Qed.

Lemma int_body_numeral (ds : str) (acc : Z) (b : bool) :
  forallb is_decimal ds = true -> ds <> [] \/ b = true ->
  int_body acc b ds
  = Some (fold_left (fun a c => (10 * a + digit_val c)%Z) ds acc).
Proof.
  revert acc b. induction ds as [|c ds IH]; intros acc b Hd Hne; simpl.
  - destruct Hne as [Hne | ->]; [contradiction | reflexivity].
  - simpl in Hd. apply andb_prop in Hd as [Hc Hd].
    rewrite Hc. apply IH; [exact Hd | right; reflexivity].
Qed.



(** [int()] on a numeral is its value. *)
Lemma py_int_numeral (ds : str) :
  ds <> [] -> forallb is_decimal ds = true ->
  py_int ds = Some (FindOptThreads.decimal_value ds).
Proof.
  intros Hne Hd. unfold py_int.
  rewrite (strip_nonspace ds (decimal_nonspace ds Hd)).
  destruct ds as [|c r]; [contradiction|].
  pose proof Hd as Hd'. simpl in Hd'. apply andb_prop in Hd' as [Hc _].
  apply decimal_code in Hc.

  assert (E43 : (code c =? 43)%N = false) by (apply N.eqb_neq; lia).
  assert (E45 : (code c =? 45)%N = false) by (apply N.eqb_neq; lia).
  rewrite E43, E45.
  apply int_body_numeral; [exact Hd | left; discriminate].
Qed.











(** The longest run of decimal digits in front of something else. *)
Lemma span_decimal_numeral (ds rest : str) :
  forallb is_decimal ds = true ->
  match rest with [] => True | c :: _ => is_decimal c = false end ->
  span_decimal (ds ++ rest) = (ds, rest).
Proof.
  intros Hd Hr. induction ds as [|c ds IH]; cbn [app span_decimal].
  - destruct rest as [|c r]; [reflexivity|]. cbn [span_decimal].
    rewrite Hr. reflexivity.
  - cbn [forallb] in Hd. apply andb_prop in Hd as [Hc Hd].
    rewrite Hc, (IH Hd). reflexivity.
Qed.

(** The pattern matches at a numeral that spaces and ["ms"] follow. *)
Lemma match_ms_here_numeral (ds sp tail : str) :
  ds <> [] -> forallb is_decimal ds = true ->
  forallb is_space sp = true ->
  match_ms_here (ds ++ sp ++ lit "ms" ++ tail) = Some ds.
Proof.
  intros Hne Hd Hsp. unfold match_ms_here.
  rewrite span_decimal_numeral; [| exact Hd |].
  - destruct ds; [contradiction|].
    rewrite lstrip_spaces by exact Hsp. reflexivity.
  - destruct sp as [|w sp]; [reflexivity|].
    cbn [app]. cbn [forallb] in Hsp. apply andb_prop in Hsp as [Hw _].
    destruct (is_decimal w) eqn:E; [|reflexivity].
    rewrite (decimal_not_space w E) in Hw. discriminate.
Qed.

Lemma span_decimal_app (s : str) :
  s = fst (span_decimal s) ++ snd (span_decimal s)
  /\ forallb is_decimal (fst (span_decimal s)) = true.
Proof.
  induction s as [|c s [IH1 IH2]]; cbn [span_decimal]; [split; reflexivity|].
  destruct (is_decimal c) eqn:E; [|split; reflexivity].
  destruct (span_decimal s) as [ds rest]. cbn [fst snd app forallb] in *.
  rewrite E, IH2. split; [f_equal; exact IH1 | reflexivity].
Qed.

Lemma lstrip_app (s : str) :
  exists sp, s = sp ++ lstrip s /\ forallb is_space sp = true.
Proof.
  induction s as [|c s (sp & E & H)]; cbn [lstrip].
  - exists []. split; reflexivity.
  - destruct (is_space c) eqn:Ec.
    + exists (c :: sp). cbn [app forallb]. rewrite Ec, H.
      split; [f_equal; exact E | reflexivity].
    + exists []. split; reflexivity.
Qed.

(** The greedy function finds exactly the matches of the pattern. *)
Lemma match_ms_here_iff (s g : str) :
  match_ms_here s = Some g <-> matches_ms_here s g.
Proof.
  split.
  - intros H. unfold match_ms_here in H.
    destruct (span_decimal_app s) as [E D].
    destruct (span_decimal s) as [ds rest]. cbn [fst snd] in E, D.
    destruct ds as [|d ds]; [discriminate|].
    destruct (lstrip_app rest) as (sp & Er & Hsp).
    destruct (lstrip rest) as [|c1 [|c2 tail]]; try discriminate.
    destruct ((code c1 =? 109)%N && (code c2 =? 115)%N) eqn:C;
      [|discriminate].
    injection H as <-.
    apply andb_prop in C as [C1 C2].
    apply N.eqb_eq in C1. apply N.eqb_eq in C2.
    exists sp, tail. split; [discriminate|]. split; [exact D|].
    split; [exact Hsp|].
    rewrite E, Er. do 2 f_equal.
    cbn [lit list_ascii_of_string app]. f_equal.
    + unfold code in C1. rewrite <- (ascii_N_embedding c1), C1. reflexivity.
    + f_equal. unfold code in C2.
      rewrite <- (ascii_N_embedding c2), C2. reflexivity.
  - intros (sp & rest & Hne & Hd & Hsp & ->).
    apply match_ms_here_numeral; assumption.
Qed.






(** Group 1 of a match is a numeral. *)
Lemma match_ms_here_group (s g : str) :
  match_ms_here s = Some g -> g <> [] /\ forallb is_decimal g = true.
Proof.
  unfold match_ms_here.
  assert (D : forall u, forallb is_decimal (fst (span_decimal u)) = true).
  { induction u as [|a u IH]; cbn [span_decimal]; [reflexivity|].
    destruct (is_decimal a) eqn:Ha; [|reflexivity].
    destruct (span_decimal u). cbn [fst forallb] in *.
    rewrite Ha, IH. reflexivity. }
  specialize (D s). destruct (span_decimal s) as [ds rest]. cbn [fst] in D.
  destruct ds as [|c ds]; [discriminate|].
  destruct (lstrip rest) as [|c1 [|c2 r]]; try discriminate.
  destruct ((code c1 =? 109)%N && (code c2 =? 115)%N); [|discriminate].
  intros [= <-]. split; [discriminate | exact D].
Qed.

Lemma re_search_ms_group (s g : str) :
  re_search_ms s = Some g -> g <> [] /\ forallb is_decimal g = true.
Proof.
  induction s as [|a s IH]; cbn [re_search_ms]; [discriminate|].
  destruct (match_ms_here (a :: s)) eqn:E.
  - intros [= <-]. apply (match_ms_here_group _ _ E).
  - exact IH.
Qed.

End PyStrFacts.

(** ** The Execution Adapter: [run_java] *)

Module AdapterFacts.

Import PyStr Py FindOptThreads PyStrFacts.

(** [run_java] starts one process, prints only when it failed, and
    returns what [outcome] says. *)
Lemma run_java_spec (java : nat -> Z -> completed_process) (t : Z)
    (w : world) :
  run_java java t w
  = ({| calls := calls w ++ [t];
        out := out w ++ exec_error_events t (java (length (calls w)) t) |},
     outcome (java (length (calls w)) t)).
Proof.
  unfold run_java, bind, subprocess_run, outcome, exec_error_events.
  destruct (negb (returncode (java (length (calls w)) t) =? 0)%Z).
  - reflexivity.
  - cbn [calls out]. rewrite app_nil_r. unfold lift.
    destruct (last_line (stdout (java (length (calls w)) t)));
      reflexivity.
Qed.






(** The pattern never hands [int()] something it rejects: [parse_ms]
    raises nothing but its own [RuntimeError]. *)
Lemma parse_ms_raise (line : str) (e : exn) :
  parse_ms line = Raise e ->
  e = RuntimeError (Nao_consegui_extrair_ms line).
Proof.
  unfold parse_ms. destruct (try_tokens line); [discriminate|].
  destruct (re_search_ms line) as [g|] eqn:R.
  - apply re_search_ms_group in R as [Hne Hd].
    rewrite (py_int_numeral g Hne Hd). discriminate.
  - intros [= <-]. reflexivity.
Qed.


(** A process that prints nothing: line 90 raises outside the [try]. *)
Lemma outcome_blank_stdout (err : str) :
  outcome {| returncode := 0; stdout := []; stderr := err |}
  = Raise IndexError.
Proof. reflexivity. Qed.




End AdapterFacts.

(** ** Facts about the Python helpers *)

Module PyFacts.

Import Py.

Lemma Qlt_bool_iff (a b : Q) : Qlt_bool a b = true <-> a < b.
Proof.
  unfold Qlt_bool. rewrite negb_true_iff. split.
  - intros H. apply Qnot_le_lt. intros L.
    apply Qle_bool_iff in L. congruence.
  - intros H. destruct (Qle_bool b a) eqn:E; [|reflexivity].
    apply Qle_bool_iff in E. apply Qle_not_lt in E. contradiction.
Qed.

Lemma Qlt_bool_false (a b : Q) : Qlt_bool a b = false <-> ~ a < b.
Proof.
  rewrite <- Qlt_bool_iff. destruct (Qlt_bool a b); split; intros H;
    congruence.
Qed.

Lemma Qle_bool_false (a b : Q) : Qle_bool a b = false <-> ~ a <= b.
Proof.
  rewrite <- Qle_bool_iff. destruct (Qle_bool a b); split; intros H;
    congruence.
Qed.

Lemma Qeq_bool_false (a b : Q) : Qeq_bool a b = false <-> ~ a == b.
Proof.
  rewrite <- Qeq_bool_iff. destruct (Qeq_bool a b); split; intros H;
    congruence.
Qed.

Lemma py_div_ok (a b : Q) : ~ b == 0 -> py_div a b = Ok (a / b).
Proof.
  intros H. unfold py_div. apply Qeq_bool_false in H. rewrite H.
  reflexivity.
Qed.


Lemma py_range_nil (lo hi : Z) : (hi <= lo)%Z -> py_range lo hi = [].
Proof.
  intros H. unfold py_range.
  replace (Z.to_nat (hi - lo)) with 0%nat by lia. reflexivity.
Qed.

Lemma py_range_cons (lo hi : Z) :
  (lo < hi)%Z -> py_range lo hi = lo :: py_range (lo + 1) hi.
Proof.
  intros H. unfold py_range.
  replace (Z.to_nat (hi - lo)) with (S (Z.to_nat (hi - (lo + 1)))) by lia.
  cbn [seq map]. f_equal; [lia|].
  rewrite <- seq_shift, map_map. apply map_ext. intros k. lia.
Qed.

Lemma py_range_length (lo hi : Z) :
  length (py_range lo hi) = Z.to_nat (hi - lo).
Proof. unfold py_range. rewrite length_map, length_seq. reflexivity. Qed.




Lemma len_nonneg {A : Type} (xs : list A) : (0 <= len xs)%Z.
Proof. unfold len. lia. Qed.

Lemma len_app {A : Type} (xs ys : list A) :
  len (xs ++ ys) = (len xs + len ys)%Z.
Proof. unfold len. rewrite length_app. lia. Qed.




Lemma Qpos_nonzero (x : Q) : 0 < x -> ~ x == 0.
Proof. intros P Z. rewrite Z in P. exact (Qlt_irrefl 0 P). Qed.

Create HintDb qpos.
#[local] Hint Resolve Qpos_nonzero : qpos.



End PyFacts.

(** ** The sweep: sampling one level *)

Module CollectorFacts.

Import PyStr Py FindOptThreads PyFacts AdapterFacts.
Local Open Scope py_scope.

Lemma bind_ok {A B : Type} (m : M A) (k : A -> M B) (w w' : world) (a : A) :
  m w = (w', Ok a) -> bind m k w = k a w'.
Proof. intros H. unfold bind. rewrite H. reflexivity. Qed.


Lemma outcome_ok_silent (t : Z) (res : completed_process) (v : Z) :
  outcome res = Ok v -> exec_error_events t res = [].
Proof.
  unfold outcome, exec_error_events.
  destruct (negb (returncode res =? 0)%Z); [discriminate | reflexivity].
Qed.

Section WithProcess.

Variable java : nat -> Z -> completed_process.

(** When every trial returns, the collector makes one invocation per run
    index, in order, and appends one time and one row for each. *)
Lemma collect_ok (t iters : Z) (idxs vs times : list Z)
    (recs : list record) (w : world) :
  length vs = length idxs ->
  (forall j, (j < length idxs)%nat ->
     outcome (java (length (calls w) + j) t) = Ok (nth j vs 0%Z)) ->
  collect java t iters idxs times recs w
  = ({| calls := calls w ++ repeat t (length idxs);
        out := out w ++ iter_events iters idxs vs |},
     Ok (times ++ vs, recs ++ rows t idxs vs)).
Proof.
  revert vs times recs w.
  induction idxs as [|i idxs IH]; intros vs times recs w Hlen H.
  - destruct vs; [|discriminate].
    cbn. rewrite !app_nil_r. destruct w. reflexivity.
  - destruct vs as [|v vs]; [discriminate|].
    cbn [collect].
    pose proof (H 0%nat ltac:(cbn; lia)) as H0.
    rewrite Nat.add_0_r in H0. cbn [nth] in H0.
    rewrite (bind_ok _ _ w _ v (eq_trans (run_java_spec java t w)
               (f_equal2 pair eq_refl H0))).
    rewrite (outcome_ok_silent t _ v H0), app_nil_r.
    unfold bind at 1, print at 1. cbn [calls out].
    rewrite (IH vs).
    + unfold rows, iter_events.
      cbn [calls out length repeat combine map fst snd].
      rewrite <- !app_assoc. reflexivity.
    + cbn in Hlen. lia.
    + intros j Hj. cbn [calls]. rewrite length_app. cbn [length].
      replace (length (calls w) + 1 + j)%nat
        with (length (calls w) + S j)%nat by lia.
      apply (H (S j)). cbn. lia.
Qed.


(** Whatever the processes do, a collector that returns has appended one
    row per run index for this level, and one that raises has not gone
    past this level. *)
Lemma collect_inv (t iters : Z) (idxs times : list Z) (recs : list record)
    (w w' : world) (r : result (list Z * list record)) :
  collect java t iters idxs times recs w = (w', r) ->
  (exists cs evs,
      calls w' = calls w ++ cs /\ Forall (eq t) cs
      /\ out w' = out w ++ evs
      /\ Forall (fun e => match e with
                          | PIter _ _ _ | PExecError _ _ _ => True
                          | _ => False
                          end) evs)
  /\ match r with
     | Ok (times', recs') =>
         exists vs, length vs = length idxs
                    /\ times' = times ++ vs
                    /\ recs' = recs ++ rows t idxs vs
     | Raise _ => True
     end.
Proof.
  revert times recs w.
  induction idxs as [|i idxs IH]; intros times recs w E.
  - cbn in E. injection E as <- <-. split.
    + exists [], []. rewrite !app_nil_r. repeat split; constructor.
    + exists []. rewrite !app_nil_r. repeat split.
  - cbn [collect] in E. unfold bind at 1 in E.
    rewrite run_java_spec in E.
    assert (Hev : Forall (fun e => match e with
                          | PIter _ _ _ | PExecError _ _ _ => True
                          | _ => False
                          end)
                    (exec_error_events t (java (length (calls w)) t))).
    { unfold exec_error_events.
      destruct (negb _); repeat constructor. }
    destruct (outcome (java (length (calls w)) t)) as [v|e].
    + unfold bind at 1, print at 1 in E. cbn [calls out] in E.
      apply IH in E as [(cs & evs & C & Hcs & O & Hevs) R].
      cbn [calls out] in C, O. split.
      * exists (t :: cs),
          (exec_error_events t (java (length (calls w)) t)
           ++ PIter i iters v :: evs).
        rewrite C, O, <- !app_assoc. repeat split.
        -- constructor; [reflexivity | exact Hcs].
        -- apply Forall_app. split; [exact Hev|].
           constructor; [exact I | exact Hevs].
      * destruct r as [[times' recs']|]; [|exact I].
        destruct R as (vs & L & -> & ->).
        exists (v :: vs). cbn [length]. rewrite L, <- !app_assoc.
        repeat split.
    + injection E as <- <-. split; [|exact I].
      exists [t], (exec_error_events t (java (length (calls w)) t)).
      repeat split; [repeat constructor | exact Hev].
Qed.

End WithProcess.

End CollectorFacts.

(** ** The sweep: one level *)

Module LevelFacts.

Import PyStr Py FindOptThreads PyFacts AdapterFacts CollectorFacts.
Local Open Scope py_scope.

Lemma level_stats_ok (times : list Z) (w : world) :
  times <> [] ->
  level_stats times w
  = ({| calls := calls w;
        out := out w ++ [PStats (meanQ times) (std_of times)] |},
     Ok (meanQ times, std_of times)).
Proof.
  intros Hne. destruct times as [|x times]; [contradiction|].
  unfold level_stats, bind, lift, mean, pstdev, std_of, ret, print.
  destruct (1 <? len (x :: times))%Z; reflexivity.
Qed.

Lemma level_stats_inv (times : list Z) (w w' : world)
    (r : result (Q * root)) :
  level_stats times w = (w', r) ->
  calls w' = calls w
  /\ match r with
     | Ok (m, s) => out w' = out w ++ [PStats m s]
     | Raise _ => out w' = out w
     end.
Proof.
  destruct times as [|x times].
  - cbn. intros [= <- <-]. split; reflexivity.
  - rewrite level_stats_ok by discriminate. intros [= <- <-].
    split; reflexivity.
Qed.


(** Lines 140-145 taken: no new best and no relevant gain. *)
Lemma rule_no_gain (patience : Z) (min_gain : Q) (recs : list record)
    (m b : Q) (st : loop_state) (w : world) :
  best_mean st = Fin b ->
  fails_both_checks min_gain b m ->
  early_stop_rule patience min_gain recs m st w
  = ({| calls := calls w;
        out := out w
               ++ PNoGain min_gain (no_improve st + 1) patience
                  :: (if (patience <=? no_improve st + 1)%Z
                      then [PEarlyStop] else []) |},
     Ok ({| records := recs; best_mean := Fin b;
            no_improve := no_improve st + 1 |},
         (patience <=? no_improve st + 1)%Z)).
Proof.
  intros Hb (Hlt & Hnz & Hg). unfold early_stop_rule. rewrite Hb.
  cbn [lt_fl]. apply Qlt_bool_false in Hlt. rewrite Hlt.
  unfold bind, lift, print, ret.
  rewrite (py_div_ok (b - m) b Hnz).
  apply Qle_bool_false in Hg. rewrite Hg.
  destruct (patience <=? no_improve st + 1)%Z; cbv beta iota;
    cbn [calls out].
  - rewrite <- app_assoc. reflexivity.
  - reflexivity.
Qed.


(** Whatever the state, the rule starts no process, keeps the rows it
    was given, and its new best mean is the old one or this level's. *)
Lemma rule_inv (patience : Z) (min_gain : Q) (recs : list record)
    (m : Q) (st : loop_state) (w w' : world)
    (r : result (loop_state * bool)) :
  early_stop_rule patience min_gain recs m st w = (w', r) ->
  calls w' = calls w
  /\ (exists evs,
         out w' = out w ++ evs
         /\ Forall (fun e => match e with
                             | PNewBest _ _ | PGainContinue _
                             | PNoGain _ _ _ | PEarlyStop => True
                             | _ => False
                             end) evs)
  /\ match r with
     | Ok (st', _) =>
         records st' = recs
         /\ (best_mean st' = best_mean st \/ best_mean st' = Fin m)
     | Raise e => e = ZeroDivisionError
     end.
Proof.
  unfold early_stop_rule, bind, lift, print, ret, py_div.
  destruct (lt_fl (m + eps) (best_mean st));
    destruct (best_mean st) as [b|];
    try destruct (Qeq_bool b 0);
    cbv beta iota;
    repeat match goal with
           | |- context [if ?c then _ else _] => destruct c; cbv beta iota
           end;
    intros [= <- <-]; cbn [calls out records best_mean];
    (split; [reflexivity|]);
    (split;
     [ first [ exists []; rewrite app_nil_r; split;
               [reflexivity | constructor]
             | eexists; split;
               [ first [reflexivity | rewrite <- app_assoc; reflexivity]
               | repeat constructor ] ]
     | first [ reflexivity
             | split; [reflexivity | first [left; reflexivity
                                           | right; reflexivity]] ] ]).
Qed.


Section WithProcess.

Variable java : nat -> Z -> completed_process.

(** A level whose trials all return reaches the rule with its rows
    appended, its mean computed, and [iters] more invocations made. *)
Lemma level_body_ok (iters patience : Z) (min_gain : Q) (t : Z)
    (st : loop_state) (w : world) (vs : list Z) :
  (1 <= iters)%Z ->
  length vs = Z.to_nat iters ->
  (forall j, (j < Z.to_nat iters)%nat ->
     outcome (java (length (calls w) + j) t) = Ok (nth j vs 0%Z)) ->
  level_body java iters patience min_gain t st w
  = early_stop_rule patience min_gain (records st ++ sample_set t vs)
      (meanQ vs) st
      {| calls := calls w ++ repeat t (Z.to_nat iters);
         out := out w ++ level_events iters t vs |}.
Proof.
  intros Hi Hlen H. unfold level_body.
  unfold bind at 1, print at 1.
  assert (L : length (py_range 1 (iters + 1)) = Z.to_nat iters)
    by (rewrite py_range_length; lia).
  rewrite (bind_ok _ _ _ _ _
             (collect_ok java t iters (py_range 1 (iters + 1)) vs []
                (records st)
                {| calls := calls w; out := out w ++ [PThreads t] |}
                (eq_trans Hlen (eq_sym L))
                ltac:(rewrite L; exact H))).
  cbv beta iota. cbn [app calls out].
  assert (Hne : vs <> []) by (destruct vs; [cbn in Hlen; lia | discriminate]).
  rewrite (bind_ok _ _ _ _ _ (level_stats_ok vs _ Hne)).
  cbv beta iota. cbn [calls out].
  unfold sample_set, level_events.
  replace (len vs + 1)%Z with (iters + 1)%Z by (unfold len; lia).
  rewrite L, <- !app_assoc. reflexivity.
Qed.


End WithProcess.
End LevelFacts.

(** ** The sweep: the loop over the levels *)

Module LoopFacts.

Import PyStr Py FindOptThreads PyFacts AdapterFacts CollectorFacts
  LevelFacts.
Local Open Scope py_scope.

Section WithProcess.

Variable java : nat -> Z -> completed_process.
Variables (iters patience : Z) (min_gain : Q).

Lemma levels_loop_cons (t : Z) (ts : list Z) (st : loop_state)
    (w : world) :
  levels_loop java iters patience min_gain (t :: ts) st w
  = match level_body java iters patience min_gain t st w with
    | (w1, Ok (st1, false)) =>
        levels_loop java iters patience min_gain ts st1 w1
    | (w1, Ok (st1, true)) => (w1, Ok (st1, true))
    | (w1, Raise e) => (w1, Raise e)
    end.
Proof.
  cbn [levels_loop]. unfold bind.
  destruct (level_body java iters patience min_gain t st w)
    as [w1 [[st1 [|]]|e]]; reflexivity.
Qed.



End WithProcess.

End LoopFacts.

(** ** The Sweep Controller *)

Module SweepController.

Import PyStr Py FindOptThreads PyFacts AdapterFacts CollectorFacts
  LevelFacts LoopFacts.
Local Open Scope py_scope.






Lemma trials_return_shorter (java : nat -> Z -> completed_process)
    (k0 : nat) (iters t hi hi' : Z) (v : Z -> Z -> Z) :
  (hi' <= hi)%Z ->
  trials_return java k0 iters t hi v ->
  trials_return java k0 iters t hi' v.
Proof. intros Hh H u i Hu Hi. apply H; lia. Qed.











Section EarlyStop.

Variable java : nat -> Z -> completed_process.
Variables (iters patience : Z) (min_gain : Q).
Variable v : Z -> Z -> Z.
Variable b : Q.


End EarlyStop.

Lemma sweep_threads_unfold (java : nat -> Z -> completed_process)
    (iters tmin tmax patience : Z) (min_gain : Q) (w : world) :
  sweep_threads java iters tmin tmax patience min_gain w
  = match levels_loop java iters patience min_gain
            (py_range tmin (tmax + 1)) init_state w with
    | (w', Ok (st, _)) => (w', Ok (records st))
    | (w', Raise e) => (w', Raise e)
    end.
Proof.
  unfold sweep_threads, bind.
  destruct (levels_loop java iters patience min_gain
              (py_range tmin (tmax + 1)) init_state w)
    as [w' [[st stop]|e]]; reflexivity.
Qed.

(** With a patience of 0 or less, the first level that fails both checks
    already ends the loop. *)
Lemma break_without_patience (java : nat -> Z -> completed_process)
    (iters patience : Z) (min_gain : Q) (t : Z) (rest : list Z)
    (st : loop_state) (w : world) (vs : list Z) (b : Q) :
  (1 <= iters)%Z -> (patience <= 0)%Z -> (0 <= no_improve st)%Z ->
  best_mean st = Fin b ->
  length vs = Z.to_nat iters ->
  (forall j, (j < Z.to_nat iters)%nat ->
     outcome (java (length (calls w) + j)%nat t) = Ok (nth j vs 0%Z)) ->
  fails_both_checks min_gain b (meanQ vs) ->
  exists w',
    levels_loop java iters patience min_gain (t :: rest) st w
    = (w', Ok ({| records := records st ++ sample_set t vs;
                  best_mean := Fin b;
                  no_improve := no_improve st + 1 |}, true))
    /\ calls w' = calls w ++ repeat t (Z.to_nat iters).
Proof.
  intros Hi Hp Hn Hb Hlen Hv Hf.
  rewrite levels_loop_cons.
  rewrite (level_body_ok java iters patience min_gain t st w vs Hi Hlen Hv).
  rewrite (rule_no_gain patience min_gain _ _ b st _ Hb Hf).
  replace (patience <=? no_improve st + 1)%Z with true
    by (symmetry; apply Z.leb_le; lia).
  eexists. split; reflexivity.
Qed.





Section Exhaustion.

Variable java : nat -> Z -> completed_process.
Variables (iters patience : Z) (min_gain : Q).
Variable v : Z -> Z -> Z.


End Exhaustion.



(** Without trials ([iters <= 0]) the first level has no times and
    [statistics.mean] raises: nothing is returned. *)
Lemma sweep_without_trials (java : nat -> Z -> completed_process)
    (iters tmin tmax patience : Z) (min_gain : Q) :
  (iters <= 0)%Z -> (tmin <= tmax)%Z ->
  sweep_threads java iters tmin tmax patience min_gain w0
  = ({| calls := []; out := [PThreads tmin] |}, Raise StatisticsError).
Proof.
  intros Hi Ht. rewrite sweep_threads_unfold.
  rewrite (py_range_cons tmin) by lia. rewrite levels_loop_cons.
  unfold level_body. rewrite (py_range_nil 1 (iters + 1)) by lia.
  reflexivity.
Qed.








Section DeadGainBranch.

Variable java : nat -> Z -> completed_process.
Variables (iters patience : Z) (min_gain : Q).
Hypothesis min_gain_pos : 0 < min_gain.




End DeadGainBranch.



End SweepController.

(** ** The Sample Collector *)

Module SampleCollector.

Import PyStr Py FindOptThreads PyFacts AdapterFacts CollectorFacts
  LevelFacts.








End SampleCollector.

(** ** The Aggregator: speedup against the sequential baseline *)

Module Reporter.

Import PyStr Py BenchmarkAndPlot.

Lemma code_inj (c d : ascii) : code c = code d -> c = d.
Proof.
  unfold code. intros H.
  rewrite <- (ascii_N_embedding c), <- (ascii_N_embedding d), H.
  reflexivity.
Qed.

Lemma str_eqb_eq (a b : str) : str_eqb a b = true <-> a = b.
Proof.
  revert b. induction a as [|c a IH]; intros [|d b]; cbn [str_eqb];
    try (split; [discriminate | discriminate]);
    try (split; reflexivity).
  rewrite andb_true_iff, N.eqb_eq, IH. split.
  - intros [Hc ->]. apply code_inj in Hc. subst d. reflexivity.
  - intros [= -> ->]. split; reflexivity.
Qed.

Lemma key_eqb_eq (k1 k2 : key) : key_eqb k1 k2 = true <-> k1 = k2.
Proof.
  destruct k1 as [v1 t1], k2 as [v2 t2]. unfold key_eqb. cbn [fst snd].
  rewrite andb_true_iff, str_eqb_eq, Z.eqb_eq. split.
  - intros [-> ->]. reflexivity.
  - intros [= -> ->]. split; reflexivity.
Qed.

Lemma insert_sorted_in (k x : key) (ks : list key) :
  In x (insert_sorted k ks) <-> x = k \/ In x ks.
Proof.
  induction ks as [|h r IH]; cbn [insert_sorted].
  - cbn. intuition.
  - destruct (key_ltb k h); cbn [In]; [intuition|].
    rewrite IH. intuition.
Qed.

Lemma insert_sorted_nodup (k : key) (ks : list key) :
  ~ In k ks -> NoDup ks -> NoDup (insert_sorted k ks).
Proof.
  intros Hk Hn. induction Hn as [|h r Hh Hr IH]; cbn [insert_sorted].
  - constructor; [intros [] | constructor].
  - destruct (key_ltb k h).
    + constructor; [exact Hk | constructor; assumption].
    + constructor.
      * rewrite insert_sorted_in. intros [-> | H]; [|exact (Hh H)].
        apply Hk. left. reflexivity.
      * apply IH. intros H. apply Hk. right. exact H.
Qed.

Lemma add_key_nodup (ks : list key) (k : key) :
  NoDup ks -> NoDup (add_key ks k).
Proof.
  intros Hn. unfold add_key.
  destruct (existsb (key_eqb k) ks) eqn:E; [exact Hn|].
  apply insert_sorted_nodup; [|exact Hn].
  intros H.
  assert (T : existsb (key_eqb k) ks = true).
  { apply existsb_exists. exists k. split; [exact H|].
    apply key_eqb_eq. reflexivity. }
  congruence.
Qed.

(** The groups have distinct keys. *)
Lemma group_keys_nodup (df : list row) : NoDup (group_keys df).
Proof.
  unfold group_keys.
  assert (G : forall l ks, NoDup ks -> NoDup (fold_left add_key l ks)).
  { induction l as [|k l IH]; intros ks Hn; cbn [fold_left];
      [exact Hn | apply IH, add_key_nodup, Hn]. }
  apply G. constructor.
Qed.

Lemma groupby_mean_keys (df : list row) :
  map fst (groupby_mean df) = group_keys df.
Proof.
  unfold groupby_mean. rewrite map_map. cbn [fst]. apply map_id.
Qed.

Lemma assoc_unique {A B : Type} (l : list (A * B)) (k : A) (x y : B) :
  NoDup (map fst l) -> In (k, x) l -> In (k, y) l -> x = y.
Proof.
  induction l as [|[k0 z] l IH]; cbn [map fst]; intros Hn Hx Hy;
    [contradiction|].
  inversion Hn as [|? ? Hk Hn']; subst.
  destruct Hx as [Ex | Hx], Hy as [Ey | Hy].
  - congruence.
  - exfalso. apply Hk. apply in_map_iff. exists (k, y).
    split; [cbn [fst]; congruence | exact Hy].
  - exfalso. apply Hk. apply in_map_iff. exists (k, x).
    split; [cbn [fst]; congruence | exact Hx].
  - apply IH; assumption.
Qed.

(** Without a sequential baseline the function exits with status 2. *)
Lemma speedup_no_baseline (df : list row) :
  ~ In seq_key (group_keys df) -> speedup df = Raise (SystemExit 2).
Proof.
  intros H. unfold speedup.
  destruct (filter _ (groupby_mean df)) as [|[k m] l] eqn:F; [reflexivity|].
  exfalso. apply H.
  assert (I : In (k, m) (filter (fun km => key_eqb (fst km) seq_key)
                           (groupby_mean df)))
    by (rewrite F; left; reflexivity).
  apply filter_In in I as [I E]. cbn [fst] in E.
  apply key_eqb_eq in E. subst k.
  rewrite <- groupby_mean_keys. apply in_map_iff.
  exists (seq_key, m). split; [reflexivity | exact I].
Qed.

(** C8.  When the group ("seq", 1) is present with a positive mean
    [seq_mean], the speedup of every group is [seq_mean] divided by the
    mean of that group (the quotient itself when that mean is positive),
    and the speedup of the group ("seq", 1) is 1. *)
Theorem baseline_speedup_identity :
  forall (df : list row) (seq_mean : Q),
    In (seq_key, seq_mean) (groupby_mean df) ->
    0 < seq_mean ->
    speedup df
    = Ok (map (fun km => (fst km, np_div seq_mean (snd km)))
              (groupby_mean df))
    /\ (forall k m, In (k, m) (groupby_mean df) -> 0 < m ->
          np_div seq_mean m = NFin (seq_mean / m))
    /\ (forall sp x, speedup df = Ok sp -> In (seq_key, x) sp ->
          exists q, x = NFin q /\ q == 1).
Proof.
  intros df seq_mean Hin Hpos.
  pose proof (group_keys_nodup df) as Hn.
  rewrite <- groupby_mean_keys in Hn.
  assert (Hnz : ~ seq_mean == 0) by (apply PyFacts.Qpos_nonzero, Hpos).
  assert (S : speedup df
              = Ok (map (fun km => (fst km, np_div seq_mean (snd km)))
                        (groupby_mean df))).
  { unfold speedup.
    destruct (filter _ (groupby_mean df)) as [|[k m] l] eqn:F.
    - exfalso.
      assert (I : In (seq_key, seq_mean)
                    (filter (fun km => key_eqb (fst km) seq_key)
                       (groupby_mean df))).
      { apply filter_In. split; [exact Hin|].
        apply key_eqb_eq. reflexivity. }
      rewrite F in I. exact I.
    - assert (I : In (k, m) (filter (fun km => key_eqb (fst km) seq_key)
                               (groupby_mean df)))
        by (rewrite F; left; reflexivity).
      apply filter_In in I as [I E]. cbn [fst] in E.
      apply key_eqb_eq in E. subst k.
      rewrite (assoc_unique _ _ _ _ Hn I Hin). reflexivity. }
  split; [exact S | split].
  - intros k m _ Hm. unfold np_div.
    assert (E : Qeq_bool m 0 = false).
    { apply PyFacts.Qeq_bool_false, PyFacts.Qpos_nonzero, Hm. }
    rewrite E. reflexivity.
  - intros sp x Hsp Hx. rewrite S in Hsp. injection Hsp as <-.
    apply in_map_iff in Hx as ([k m] & [= -> <-] & Hkm).
    rewrite (assoc_unique _ _ _ _ Hn Hkm Hin).
    exists (seq_mean / seq_mean). split.
    + unfold np_div.
      apply PyFacts.Qeq_bool_false in Hnz. rewrite Hnz. reflexivity.
    + field. exact Hnz.
Qed.

Lemma baseline_speedup_identity_witness :
  speedup Examples.results_csv
  = Ok (map (fun km => (fst km, np_div (meanQ [1000; 1100]%Z) (snd km)))
            (groupby_mean Examples.results_csv))
  /\ (forall k m, In (k, m) (groupby_mean Examples.results_csv) -> 0 < m ->
        np_div (meanQ [1000; 1100]%Z) m
        = NFin (meanQ [1000; 1100]%Z / m))
  /\ (forall sp x, speedup Examples.results_csv = Ok sp ->
        In (seq_key, x) sp -> exists q, x = NFin q /\ q == 1).
Proof.
  apply (baseline_speedup_identity Examples.results_csv
           (meanQ [1000; 1100]%Z)).
  - vm_compute. right. right. left. reflexivity.
  - reflexivity.
Defined.

End Reporter.

(** ** What every sweep does, whatever the processes do *)

Module SweepInvariants.

Import PyStr Py FindOptThreads PyFacts AdapterFacts CollectorFacts
  LevelFacts LoopFacts SweepController.
Local Open Scope py_scope.

Section WithProcess.

Variable java : nat -> Z -> completed_process.

(** The collector starts one process per trial it reaches: all of them
    when it returns, at most all of them when it raises. *)
Lemma collect_calls (t iters : Z) (idxs times : list Z)
    (recs : list record) (w w' : world)
    (r : result (list Z * list record)) :
  collect java t iters idxs times recs w = (w', r) ->
  exists n,
    (n <= length idxs)%nat
    /\ calls w' = calls w ++ repeat t n
    /\ match r with
       | Ok _ => n = length idxs
       | Raise _ => True
       end.
Proof.
  revert times recs w.
  induction idxs as [|i idxs IH]; intros times recs w E.
  - cbn in E. injection E as <- <-. exists 0%nat.
    cbn [repeat]. rewrite app_nil_r. repeat split. lia.
  - cbn [collect] in E. unfold bind at 1 in E.
    rewrite run_java_spec in E.
    destruct (outcome (java (length (calls w)) t)) as [v|e].
    + unfold bind at 1, print at 1 in E. cbn [calls out] in E.
      apply IH in E as (n & Hn & C & R). cbn [calls] in C.
      exists (S n). cbn [length repeat]. split; [lia|]. split.
      * rewrite C, <- app_assoc. reflexivity.
      * destruct r; [lia | exact I].
    + injection E as <- <-. exists 1%nat. cbn [length repeat calls].
      repeat split. lia.
Qed.

(** One level: its invocations, and its rows when it returns. *)
Lemma level_body_shape (iters patience : Z) (min_gain : Q) (t : Z)
    (st : loop_state) (w w' : world) (r : result (loop_state * bool)) :
  level_body java iters patience min_gain t st w = (w', r) ->
  exists n,
    (n <= Z.to_nat iters)%nat
    /\ calls w' = calls w ++ repeat t n
    /\ match r with
       | Ok (st', _) =>
           n = Z.to_nat iters
           /\ exists vs, length vs = Z.to_nat iters
                         /\ records st' = records st ++ sample_set t vs
       | Raise _ => True
       end.
Proof.
  assert (L : length (py_range 1 (iters + 1)) = Z.to_nat iters)
    by (rewrite py_range_length; f_equal; lia).
  unfold level_body. unfold bind at 1, print at 1. unfold bind at 1.
  destruct (collect java t iters (py_range 1 (iters + 1)) [] (records st) _)
    as [w1 r1] eqn:C.
  pose proof (collect_calls _ _ _ _ _ _ _ _ C) as (n & Hn & Cc & Hr).
  cbn [calls] in Cc. rewrite L in Hn.
  destruct r1 as [[times recs]|e].
  - apply collect_inv in C as [_ (vs & Lv & _ & ->)].
    rewrite L in Lv, Hr. unfold bind at 1.
    destruct (level_stats times w1) as [w2 [[m s]|e]] eqn:S;
      apply level_stats_inv in S as [Sc _].
    + intros R. apply rule_inv in R as (Rc & _ & R2).
      exists n. split; [exact Hn|]. split; [rewrite Rc, Sc; exact Cc|].
      destruct r as [[st' b]|]; [|exact I].
      destruct R2 as [-> _]. split; [exact Hr|].
      exists vs. split; [exact Lv|]. f_equal.
      unfold sample_set. f_equal. unfold py_range. do 2 f_equal.
      unfold len. rewrite Lv. lia.
    + intros [= <- <-]. exists n.
      split; [exact Hn | split; [rewrite Sc; exact Cc | exact I]].
  - intros [= <- <-]. exists n.
    split; [exact Hn | split; [exact Cc | exact I]].
Qed.

End WithProcess.


Lemma sample_set_map_threads (t : Z) (vs : list Z) :
  map threads (sample_set t vs) = repeat t (length vs).
Proof.
  unfold sample_set, rows. rewrite map_map. cbn [threads].
  assert (L : length (combine (py_range 1 (len vs + 1)) vs) = length vs).
  { rewrite length_combine, py_range_length. unfold len. lia. }
  rewrite <- L. generalize (combine (py_range 1 (len vs + 1)) vs).
  induction l as [|x l IH]; [reflexivity|]. cbn [map length repeat].
  f_equal. exact IH.
Qed.

Lemma strongly_sorted_block (t : Z) (n : nat) (l : list Z) :
  Forall (fun c => (t <= c)%Z) l -> StronglySorted Z.le l ->
  StronglySorted Z.le (repeat t n ++ l).
Proof.
  intros Hl Hs. induction n as [|n IH]; [exact Hs|].
  cbn [repeat app]. constructor; [exact IH|].
  apply Forall_app. split; [|exact Hl].
  apply Forall_forall. intros x Hx. apply repeat_spec in Hx. lia.
Qed.

Section Loop.

Variable java : nat -> Z -> completed_process.
Variables (iters patience : Z) (min_gain : Q).

(** The rule breaks only after printing the early-stop line. *)
Lemma rule_break_prints (recs : list record) (m : Q) (st st' : loop_state)
    (w w' : world) :
  early_stop_rule patience min_gain recs m st w = (w', Ok (st', true)) ->
  In PEarlyStop (out w').
Proof.
  unfold early_stop_rule, bind, lift, print, ret, py_div.
  destruct (lt_fl (m + eps) (best_mean st));
    destruct (best_mean st) as [b|];
    try destruct (Qeq_bool b 0);
    cbv beta iota;
    repeat match goal with
           | |- context [if ?c then _ else _] => destruct c; cbv beta iota
           end;
    intros [= <- <-]; cbn [out].
  all: apply in_or_app; right; left; reflexivity.
Qed.

(** The invocations of a loop over levels [lo .. hi - 1]: constant blocks
    for rising levels, at most [iters] long each. *)
Lemma levels_loop_calls (k : nat) :
  forall (lo : Z) (st : loop_state) (w w' : world)
         (r : result (loop_state * bool)),
    levels_loop java iters patience min_gain
      (py_range lo (lo + Z.of_nat k)) st w = (w', r) ->
    exists cs,
      calls w' = calls w ++ cs
      /\ Forall (fun c => (lo <= c < lo + Z.of_nat k)%Z) cs
      /\ StronglySorted Z.le cs
      /\ (length cs <= Z.to_nat iters * k)%nat.
Proof.
  induction k as [|k IH]; intros lo st w w' r E.
  - rewrite py_range_nil in E by lia. cbn in E. injection E as <- <-.
    exists []. rewrite app_nil_r.
    repeat split; [constructor | constructor | cbn; lia].
  - rewrite (py_range_cons lo) in E by lia.
    rewrite levels_loop_cons in E.
    destruct (level_body java iters patience min_gain lo st w)
      as [w1 r1] eqn:B.
    apply level_body_shape in B as (n & Hn & C & _).
    assert (Hblock : Forall (fun c => (lo <= c < lo + Z.of_nat (S k))%Z)
                       (repeat lo n)).
    { apply Forall_forall. intros x Hx. apply repeat_spec in Hx. lia. }
    assert (Hdone : (w', r) = (w1, r1) ->
              exists cs,
                calls w' = calls w ++ cs
                /\ Forall (fun c => (lo <= c < lo + Z.of_nat (S k))%Z) cs
                /\ StronglySorted Z.le cs
                /\ (length cs <= Z.to_nat iters * S k)%nat).
    { intros [= -> ->]. exists (repeat lo n).
      split; [exact C | split; [exact Hblock | split]].
      - rewrite <- (app_nil_r (repeat lo n)).
        apply strongly_sorted_block; constructor.
      - rewrite repeat_length. nia. }
    destruct r1 as [[st1 [|]]|e]; [apply Hdone; symmetry; exact E | |
                                   apply Hdone; symmetry; exact E].
    replace (lo + Z.of_nat (S k))%Z with (lo + 1 + Z.of_nat k)%Z in E by lia.
    apply IH in E as (cs & C2 & Hin & Hs & Hl).
    exists (repeat lo n ++ cs). split; [|split; [|split]].
    + rewrite C2, C, <- app_assoc. reflexivity.
    + apply Forall_app. split; [exact Hblock|].
      eapply Forall_impl; [|exact Hin]. intros c Hc. cbv beta in *. lia.
    + apply strongly_sorted_block; [|exact Hs].
      eapply Forall_impl; [|exact Hin]. intros c Hc. cbv beta in *. lia.
    + rewrite length_app, repeat_length. nia.
Qed.

(** The rows of a loop that returns: complete levels, one row per
    invocation; and every level of the list unless the early-stop line
    was printed. *)
Lemma levels_loop_rows (ts : list Z) :
  forall (st st' : loop_state) (w w' : world) (stop : bool),
    levels_loop java iters patience min_gain ts st w
    = (w', Ok (st', stop)) ->
    exists vss,
      (length vss <= length ts)%nat
      /\ Forall (fun vs => length vs = Z.to_nat iters) vss
      /\ records st' = records st ++ FindOptReport.rows_of_levels ts vss
      /\ calls w'
         = calls w ++ map threads (FindOptReport.rows_of_levels ts vss)
      /\ (length vss = length ts \/ In PEarlyStop (out w')).
Proof.
  induction ts as [|t ts IH]; intros st st' w w' stop E.
  - cbn in E. injection E as <- <- <-. exists [].
    unfold FindOptReport.rows_of_levels. cbn. rewrite !app_nil_r.
    repeat split; [lia | constructor | left; reflexivity].
  - rewrite levels_loop_cons in E.
    destruct (level_body java iters patience min_gain t st w)
      as [w1 r1] eqn:B.
    pose proof (level_body_shape _ _ _ _ _ _ _ _ _ B)
      as (n & _ & C & R).
    destruct r1 as [[st1 stop1]|e]; [|destruct e; discriminate E].
    destruct R as (-> & vs & Lv & Er).
    assert (Cv : calls w1 = calls w ++ map threads (sample_set t vs))
      by (rewrite sample_set_map_threads, Lv; exact C).
    destruct stop1.
    + injection E as <- <- <-. exists [vs].
      unfold FindOptReport.rows_of_levels.
      cbn [combine]. rewrite combine_nil.
      cbn [map concat fst snd length]. rewrite app_nil_r.
      split; [lia|]. split; [repeat constructor; exact Lv|].
      split; [exact Er|]. split; [exact Cv|].
      right. unfold level_body in B.
      unfold bind at 1, print at 1 in B. unfold bind at 1 in B.
      destruct (collect java t iters _ _ _ _) as [w2 [[times recs]|e]];
        [|discriminate B].
      unfold bind at 1 in B.
      destruct (level_stats times w2) as [w3 [[m s]|e]];
        [|discriminate B].
      apply (rule_break_prints _ _ _ _ _ _ B).
    + apply IH in E as (vss & Hl & Hf & Er2 & C2 & Hstop).
      exists (vs :: vss). unfold FindOptReport.rows_of_levels in *.
      cbn [combine map concat fst snd length].
      split; [lia|]. split; [constructor; assumption|].
      split; [rewrite Er2, Er, <- app_assoc; reflexivity|].
      split; [rewrite C2, Cv, map_app, <- app_assoc; reflexivity|].
      destruct Hstop as [Hstop | Hstop]; [left; lia | right; exact Hstop].
Qed.

End Loop.

Lemma py_range_by_count (lo hi : Z) :
  py_range lo hi = py_range lo (lo + Z.of_nat (Z.to_nat (hi - lo))).
Proof. unfold py_range. do 2 f_equal. lia. Qed.

(** X1.  Whatever the processes do and however the sweep ends, it starts
    processes only with thread counts from [tmin] to [tmax], in
    non-decreasing order of thread count, and never more than [iters] for
    each of these levels. *)
Theorem sweep_invocations_bounded :
  forall (java : nat -> Z -> completed_process)
         (iters tmin tmax patience : Z) (min_gain : Q)
         (w' : world) (r : result (list record)),
    sweep_threads java iters tmin tmax patience min_gain w0 = (w', r) ->
    Forall (fun c => (tmin <= c <= tmax)%Z) (calls w')
    /\ StronglySorted Z.le (calls w')
    /\ (length (calls w')
        <= Z.to_nat iters * Z.to_nat (tmax + 1 - tmin))%nat
    /\ forall t, (count_occ Z.eq_dec (calls w') t <= Z.to_nat iters)%nat.
Proof.
  intros java iters tmin tmax patience min_gain w' r E.
  rewrite sweep_threads_unfold in E.
  destruct (levels_loop java iters patience min_gain
              (py_range tmin (tmax + 1)) init_state w0) as [w1 r1] eqn:L.
  assert (W : w1 = w')
    by (destruct r1 as [[st stop]|e]; injection E as <- _; reflexivity).
  subst w1. clear E.
  assert (G : forall (k : nat) (lo : Z) (st : loop_state) (w w2 : world)
                     (r2 : result (loop_state * bool)) (t : Z),
             levels_loop java iters patience min_gain
               (py_range lo (lo + Z.of_nat k)) st w = (w2, r2) ->
             exists cs, calls w2 = calls w ++ cs
                        /\ (count_occ Z.eq_dec cs t <= Z.to_nat iters)%nat
                        /\ ((t < lo)%Z -> count_occ Z.eq_dec cs t = 0%nat)).
  { induction k as [|k IH]; intros lo st w w2 r2 t E.
    - rewrite py_range_nil in E by lia. cbn in E. injection E as <- <-.
      exists []. rewrite app_nil_r. cbn. repeat split. lia.
    - rewrite (py_range_cons lo) in E by lia.
      rewrite levels_loop_cons in E.
      destruct (level_body java iters patience min_gain lo st w)
        as [w3 r3] eqn:B.
      apply level_body_shape in B as (n & Hn & C & _).
      assert (Hc : (count_occ Z.eq_dec (repeat lo n) t <= Z.to_nat iters)%nat
                   /\ ((t < lo)%Z ->
                       count_occ Z.eq_dec (repeat lo n) t = 0%nat)).
      { destruct (Z.eq_dec t lo) as [-> | Hne].
        - rewrite count_occ_repeat_eq by reflexivity. split; lia.
        - rewrite count_occ_repeat_neq by exact Hne. split; lia. }
      assert (Hdone : (w2, r2) = (w3, r3) ->
                exists cs, calls w2 = calls w ++ cs
                  /\ (count_occ Z.eq_dec cs t <= Z.to_nat iters)%nat
                  /\ ((t < lo)%Z -> count_occ Z.eq_dec cs t = 0%nat)).
      { intros [= -> ->]. exists (repeat lo n).
        split; [exact C | exact Hc]. }
      destruct r3 as [[st3 [|]]|e]; [apply Hdone; symmetry; exact E | |
                                     apply Hdone; symmetry; exact E].
      replace (lo + Z.of_nat (S k))%Z with (lo + 1 + Z.of_nat k)%Z in E
        by lia.
      apply (IH _ _ _ _ _ t) in E as (cs & C2 & Hle & Hz).
      exists (repeat lo n ++ cs). split; [|split].
      + rewrite C2, C, <- app_assoc. reflexivity.
      + rewrite count_occ_app.
        destruct (Z.eq_dec t lo) as [-> | Hne].
        * rewrite Hz by lia. destruct Hc as [Hc _]. lia.
        * rewrite count_occ_repeat_neq by exact Hne. lia.
      + intros Ht. rewrite count_occ_app. destruct Hc as [_ Hc].
        rewrite Hc by exact Ht. rewrite Hz by lia. reflexivity. }
  rewrite py_range_by_count in L.
  pose proof (levels_loop_calls java iters patience min_gain _ _ _ _ _ _ L)
    as (cs & C & Hin & Hs & Hl).
  cbn [calls w0 app] in C. rewrite C.
  split; [|split; [exact Hs | split; [exact Hl|]]].
  - eapply Forall_impl; [|exact Hin]. intros c Hc. cbv beta in *. lia.
  - intros t. apply (G _ _ _ _ _ _ t) in L as (cs' & C' & Hle & _).
    cbn [calls w0 app] in C'. rewrite <- C, C'. exact Hle.
Qed.

Lemma sweep_invocations_bounded_witness :
  Forall (fun c => (1 <= c <= 5)%Z) (calls (fst MoreExamples.scenario_run))
  /\ StronglySorted Z.le (calls (fst MoreExamples.scenario_run))
  /\ (length (calls (fst MoreExamples.scenario_run))
      <= Z.to_nat 3 * Z.to_nat (5 + 1 - 1))%nat
  /\ forall t,
       (count_occ Z.eq_dec (calls (fst MoreExamples.scenario_run)) t
        <= Z.to_nat 3)%nat.
Proof.
  apply (sweep_invocations_bounded Examples.scenario_java 3 1 5 2 (2 # 100)
           (fst MoreExamples.scenario_run)
           (snd MoreExamples.scenario_run)).
  vm_compute. reflexivity.
Defined.


(** X2.  A sweep that returns has one row per process it started, in the
    same order, and its rows are complete levels: for the first levels
    from [tmin] on, without a gap, [iters] rows each with run indices 1 to
    [iters].  It has stopped before [tmax] only if it printed the
    early-stop line. *)
Theorem returned_rows_are_complete_levels :
  forall (java : nat -> Z -> completed_process)
         (iters tmin tmax patience : Z) (min_gain : Q)
         (w' : world) (recs : list record),
    sweep_threads java iters tmin tmax patience min_gain w0
    = (w', Ok recs) ->
    map threads recs = calls w'
    /\ exists vss,
         Forall (fun vs => length vs = Z.to_nat iters) vss
         /\ recs = FindOptReport.rows_of_levels (py_range tmin (tmax + 1)) vss
         /\ (length vss <= Z.to_nat (tmax + 1 - tmin))%nat
         /\ (length vss = Z.to_nat (tmax + 1 - tmin)
             \/ In PEarlyStop (out w')).
Proof.
  intros java iters tmin tmax patience min_gain w' recs E.
  rewrite sweep_threads_unfold in E.
  destruct (levels_loop java iters patience min_gain
              (py_range tmin (tmax + 1)) init_state w0)
    as [w1 [[st stop]|e]] eqn:L; [|discriminate E].
  injection E as <- <-.
  apply levels_loop_rows in L as (vss & Hl & Hf & R & C & Hstop).
  cbn [records calls init_state w0 app] in R, C.
  rewrite py_range_length in Hl, Hstop.
  split; [rewrite C, R; reflexivity|].
  exists vss. repeat split; assumption.
Qed.

Lemma returned_rows_are_complete_levels_witness :
  map threads MoreExamples.scenario_rows
  = calls (fst MoreExamples.scenario_run)
  /\ exists vss,
       Forall (fun vs => length vs = Z.to_nat 3) vss
       /\ MoreExamples.scenario_rows
          = FindOptReport.rows_of_levels (py_range 1 (5 + 1)) vss
       /\ (length vss <= Z.to_nat (5 + 1 - 1))%nat
       /\ (length vss = Z.to_nat (5 + 1 - 1)
           \/ In PEarlyStop (out (fst MoreExamples.scenario_run))).
Proof.
  apply (returned_rows_are_complete_levels Examples.scenario_java 3 1 5 2
           (2 # 100)).
  vm_compute. reflexivity.
Defined.
End SweepInvariants.

(** ** The report of [main] and the bars of [plot_thread_sweep] *)

Module ReportFacts.

Import PyStr Py FindOptThreads FindOptReport PyFacts SweepController
  SweepInvariants.






















(** X3.  With [tmax < tmin] there is no level: the sweep starts no
    process and prints nothing, its frame is empty, and [main] prints
    that no data was collected and exits with status 2. *)
Theorem empty_range_exits_without_data :
  forall (java : nat -> Z -> completed_process)
         (iters tmin tmax patience : Z) (min_gain : Q),
    (tmax < tmin)%Z ->
    sweep_and_report java iters tmin tmax patience min_gain w0
    = (w0, [PNoData], Raise (SystemExit 2)).
Proof.
  intros java iters tmin tmax patience min_gain H.
  unfold sweep_and_report. rewrite sweep_threads_unfold.
  rewrite py_range_nil by lia. reflexivity.
Qed.

Lemma empty_range_exits_without_data_witness :
  sweep_and_report Examples.scenario_java 3 4 2 2 (2 # 100) w0
  = (w0, [PNoData], Raise (SystemExit 2)).
Proof.
  apply (empty_range_exits_without_data Examples.scenario_java 3 4 2 2
           (2 # 100)).
  lia.
Defined.


End ReportFacts.

(** ** More on what [run_java] reads from a line *)

Module AdapterEdges.

Import PyStr Py FindOptThreads PyStrFacts AdapterFacts.

Lemma splitlines_from_nonempty (s cur : str) :
  cur <> [] \/ s <> [] -> splitlines_from cur s <> [].
Proof.
  revert cur. induction s as [|c s IH]; intros cur H; cbn [splitlines_from].
  - destruct cur; [destruct H; contradiction | discriminate].
  - destruct (is_linebreak c).
    + destruct s as [|c2 r2]; [discriminate|].
      destruct ((code c =? 13)%N && (code c2 =? 10)%N); discriminate.
    + apply IH. left. destruct cur; discriminate.
Qed.

Lemma last_item_none {A : Type} (l : list A) : last_item l = None -> l = [].
Proof.
  induction l as [|a l IH]; [reflexivity|]. cbn [last_item].
  destruct l; [discriminate|]. intros H. specialize (IH H). discriminate.
Qed.

(** X9.  [run_java] lets an [IndexError] escape exactly when the process
    exited with status 0 and printed nothing but white space: line 90
    takes the last line outside the [try]. *)
Theorem run_java_index_error_iff_blank :
  forall (java : nat -> Z -> completed_process) (t : Z) (w : world),
    snd (run_java java t w) = Raise IndexError
    <-> returncode (java (length (calls w)) t) = 0%Z
        /\ strip (stdout (java (length (calls w)) t)) = [].
Proof.
  intros java t w. rewrite run_java_spec. cbn [snd].
  set (res := java (length (calls w)) t). unfold outcome, last_line.
  destruct (returncode res =? 0)%Z eqn:Erc; cbn [negb].
  - apply Z.eqb_eq in Erc.
    destruct (last_item (splitlines (strip (stdout res)))) as [line|] eqn:L.
    + split.
      * intros H. apply parse_ms_raise in H. discriminate H.
      * intros [_ Hs]. rewrite Hs in L. discriminate L.
    + split; [|reflexivity]. intros _. split; [exact Erc|].
      apply last_item_none in L.
      destruct (strip (stdout res)) as [|c s] eqn:S; [reflexivity|].
      exfalso. apply (splitlines_from_nonempty (c :: s) []);
        [right; discriminate | exact L].
  - apply Z.eqb_neq in Erc. split; [discriminate|].
    intros [H _]. contradiction.
Qed.






End AdapterEdges.

(** ** The counter of levels without improvement, and degenerate
    arguments of the sweep *)

Module SweepEdges.

Import PyStr Py FindOptThreads FindOptReport PyFacts CollectorFacts
       LevelFacts LoopFacts SweepController.

Section Counter.

Variable java : nat -> Z -> completed_process.
Variables (iters patience : Z) (min_gain : Q).




End Counter.

(** X4.  With [iters <= 0] and at least one level, the sweep starts no
    process: it prints the heading of level [tmin] and the mean of the
    empty list of times raises [StatisticsError], which [main] does not
    catch; the "no data" line is not printed. *)
Theorem no_trials_raise_statistics_error :
  forall (java : nat -> Z -> completed_process)
         (iters tmin tmax patience : Z) (min_gain : Q),
    (iters <= 0)%Z -> (tmin <= tmax)%Z ->
    sweep_and_report java iters tmin tmax patience min_gain w0
    = ({| calls := []; out := [PThreads tmin] |}, [],
       Raise StatisticsError).
Proof.
  intros java iters tmin tmax patience min_gain Hi Ht.
  unfold sweep_and_report. rewrite sweep_threads_unfold.
  rewrite (py_range_cons tmin) by lia. rewrite levels_loop_cons.
  unfold level_body. rewrite (py_range_nil 1 (iters + 1)) by lia.
  reflexivity.
Qed.

Lemma no_trials_raise_statistics_error_witness :
  sweep_and_report Examples.scenario_java 0 1 5 2 (2 # 100) w0
  = ({| calls := []; out := [PThreads 1] |}, [], Raise StatisticsError).
Proof.
  apply (no_trials_raise_statistics_error Examples.scenario_java 0 1 5 2
           (2 # 100)); lia.
Defined.



End SweepEdges.

(** ** The groups of the speedup chart *)

Module SpeedupFacts.

Import PyStr Py BenchmarkAndPlot PlotOrder Reporter.

Lemma str_ltb_cons (c d : ascii) (a b : str) :
  str_ltb (c :: a) (d :: b) = true
  <-> (code c < code d)%N \/ (c = d /\ str_ltb a b = true).
Proof.
  cbn [str_ltb]. rewrite orb_true_iff, andb_true_iff, N.ltb_lt, N.eqb_eq.
  split; intros [H | [H1 H2]]; auto.
  - right. split; [apply code_inj, H1 | exact H2].
  - right. subst. split; [reflexivity | exact H2].
Qed.

Lemma str_ltb_irrefl (a : str) : str_ltb a a = false.
Proof.
  induction a as [|c a IH]; [reflexivity|].
  cbn [str_ltb]. rewrite N.ltb_irrefl, N.eqb_refl, IH. reflexivity.
Qed.

Lemma str_ltb_trans (a b c : str) :
  str_ltb a b = true -> str_ltb b c = true -> str_ltb a c = true.
Proof.
  revert b c. induction a as [|x a IH]; intros [|y b] [|z c] H1 H2;
    try discriminate; try reflexivity.
  apply str_ltb_cons in H1. apply str_ltb_cons in H2. apply str_ltb_cons.
  destruct H1 as [H1 | [-> H1]], H2 as [H2 | [-> H2]].
  - left. lia.
  - left. exact H1.
  - left. exact H2.
  - right. split; [reflexivity | apply (IH b c H1 H2)].
Qed.

Lemma str_ltb_total (a b : str) :
  str_ltb a b = true \/ a = b \/ str_ltb b a = true.
Proof.
  revert b. induction a as [|x a IH]; intros [|y b].
  - right. left. reflexivity.
  - left. reflexivity.
  - right. right. reflexivity.
  - destruct (N.lt_trichotomy (code x) (code y)) as [H | [H | H]].
    + left. apply str_ltb_cons. left. exact H.
    + apply code_inj in H. subst y.
      destruct (IH b) as [H | [-> | H]].
      * left. apply str_ltb_cons. right. split; [reflexivity | exact H].
      * right. left. reflexivity.
      * right. right. apply str_ltb_cons. right.
        split; [reflexivity | exact H].
    + right. right. apply str_ltb_cons. left. exact H.
Qed.

Lemma klt_iff (k1 k2 : key) :
  klt k1 k2
  <-> str_ltb (fst k1) (fst k2) = true
      \/ (fst k1 = fst k2 /\ (snd k1 < snd k2)%Z).
Proof.
  unfold klt, key_ltb.
  rewrite orb_true_iff, andb_true_iff, str_eqb_eq, Z.ltb_lt. reflexivity.
Qed.

Lemma klt_irrefl (k : key) : ~ klt k k.
Proof.
  rewrite klt_iff, str_ltb_irrefl. intros [H | [_ H]]; [discriminate | lia].
Qed.

Lemma klt_trans (k1 k2 k3 : key) : klt k1 k2 -> klt k2 k3 -> klt k1 k3.
Proof.
  rewrite !klt_iff. intros [H1 | [E1 H1]] [H2 | [E2 H2]].
  - left. apply (str_ltb_trans _ _ _ H1 H2).
  - left. rewrite <- E2. exact H1.
  - left. rewrite E1. exact H2.
  - right. split; [congruence | lia].
Qed.

Lemma klt_total (k1 k2 : key) : klt k1 k2 \/ k1 = k2 \/ klt k2 k1.
Proof.
  rewrite !klt_iff. destruct k1 as [a x], k2 as [b y]. cbn [fst snd].
  destruct (str_ltb_total a b) as [H | [-> | H]]; [left; left; exact H | |
    right; right; left; exact H].
  destruct (Z.lt_trichotomy x y) as [H | [-> | H]].
  - left. right. split; [reflexivity | exact H].
  - right. left. reflexivity.
  - right. right. right. split; [reflexivity | exact H].
Qed.

Lemma insert_sorted_sorted (k : key) (ks : list key) :
  ~ In k ks -> StronglySorted klt ks ->
  StronglySorted klt (insert_sorted k ks).
Proof.
  intros Hn Hs. induction Hs as [|h r Hs IH Hh]; cbn [insert_sorted].
  - repeat constructor.
  - destruct (key_ltb k h) eqn:E.
    + constructor; [constructor; assumption|].
      constructor; [exact E|].
      eapply Forall_impl; [|exact Hh]. intros x Hx.
      apply (klt_trans _ _ _ E Hx).
    + assert (Hk : klt h k).
      { destruct (klt_total k h) as [H | [-> | H]]; [| |exact H].
        - unfold klt in H. congruence.
        - exfalso. apply Hn. left. reflexivity. }
      constructor.
      * apply IH. intros H. apply Hn. right. exact H.
      * apply Forall_forall. intros x Hx.
        apply insert_sorted_in in Hx as [-> | Hx]; [exact Hk|].
        rewrite Forall_forall in Hh. apply Hh, Hx.
Qed.

Lemma existsb_key_in (k : key) (ks : list key) :
  existsb (key_eqb k) ks = true <-> In k ks.
Proof.
  rewrite existsb_exists. split.
  - intros (x & Hx & E). apply key_eqb_eq in E. subst. exact Hx.
  - intros H. exists k. split; [exact H | apply key_eqb_eq; reflexivity].
Qed.

Lemma add_key_in (ks : list key) (k x : key) :
  In x (add_key ks k) <-> x = k \/ In x ks.
Proof.
  unfold add_key. destruct (existsb (key_eqb k) ks) eqn:E.
  - apply existsb_key_in in E. split; [auto|].
    intros [-> | H]; assumption.
  - apply insert_sorted_in.
Qed.

Lemma add_key_sorted (ks : list key) (k : key) :
  StronglySorted klt ks -> StronglySorted klt (add_key ks k).
Proof.
  intros Hs. unfold add_key. destruct (existsb (key_eqb k) ks) eqn:E.
  - exact Hs.
  - apply insert_sorted_sorted; [|exact Hs].
    intros H. apply existsb_key_in in H. congruence.
Qed.

Lemma fold_add_key_spec (l : list key) :
  forall acc,
    StronglySorted klt acc ->
    StronglySorted klt (fold_left add_key l acc)
    /\ (forall x, In x (fold_left add_key l acc) <-> In x acc \/ In x l).
Proof.
  induction l as [|k l IH]; intros acc Hs; cbn [fold_left].
  - split; [exact Hs|]. intros x. cbn [In]. tauto.
  - destruct (IH (add_key acc k) (add_key_sorted acc k Hs)) as [S I].
    split; [exact S|]. intros x. rewrite I, add_key_in. cbn [In].
    split; [intros [[-> | H] | H] | intros [H | [<- | H]]]; auto.
Qed.

(** The group keys are the keys of the rows, in strictly increasing
    order. *)
Lemma group_keys_spec (df : list row) :
  StronglySorted klt (group_keys df)
  /\ (forall k, In k (group_keys df)
                <-> exists r, In r df /\ row_key r = k).
Proof.
  unfold group_keys.
  destruct (fold_add_key_spec (map row_key df) [] (SSorted_nil klt))
    as [S I].
  split; [exact S|]. intros k. rewrite I, in_map_iff. cbn [In].
  split.
  - intros [[] | (r & E & Hr)]. exists r. split; assumption.
  - intros (r & Hr & E). right. exists r. split; assumption.
Qed.

(** Two strictly increasing lists with the same elements are equal. *)
Lemma sorted_unique (l1 : list key) :
  forall l2,
    StronglySorted klt l1 -> StronglySorted klt l2 ->
    (forall x, In x l1 <-> In x l2) -> l1 = l2.
Proof.
  induction l1 as [|a l1 IH]; intros [|b l2] S1 S2 H.
  - reflexivity.
  - exfalso. apply (proj2 (H b)). left. reflexivity.
  - exfalso. apply (proj1 (H a)). left. reflexivity.
  - inversion S1 as [|? ? S1' F1]; subst.
    inversion S2 as [|? ? S2' F2]; subst.
    rewrite Forall_forall in F1, F2.
    assert (E : a = b).
    { destruct (proj1 (H a) (or_introl eq_refl)) as [E | Ha];
        [symmetry; exact E|].
      destruct (proj2 (H b) (or_introl eq_refl)) as [E | Hb]; [exact E|].
      exfalso. apply (klt_irrefl a).
      apply (klt_trans _ _ _ (F1 _ Hb) (F2 _ Ha)). }
    subst b. f_equal. apply (IH l2 S1' S2'). intros x. split; intros Hx.
    + destruct (proj1 (H x) (or_intror Hx)) as [<- | H']; [|exact H'].
      exfalso. apply (klt_irrefl a), F1, Hx.
    + destruct (proj2 (H x) (or_intror Hx)) as [<- | H']; [|exact H'].
      exfalso. apply (klt_irrefl a), F2, Hx.
Qed.

Lemma group_perm (f : row -> bool) (df df' : list row) :
  Permutation df df' ->
  sumZ (map ms (filter f df)) = sumZ (map ms (filter f df'))
  /\ length (map ms (filter f df)) = length (map ms (filter f df')).
Proof.
  intros P. induction P as [|x l l' P [IH1 IH2]|x y l|l l' l'' P1 [I1 I2] P2 [I3 I4]].
  - split; reflexivity.
  - cbn [filter]. destruct (f x); cbn [map sumZ fold_right length];
      [|split; assumption].
    unfold sumZ in IH1. rewrite IH1, IH2. split; reflexivity.
  - cbn [filter]. destruct (f x), (f y); cbn [map sumZ fold_right length];
      split; try reflexivity. lia.
  - split; congruence.
Qed.

Lemma groupby_mean_perm (df df' : list row) :
  Permutation df df' -> groupby_mean df = groupby_mean df'.
Proof.
  intros P. unfold groupby_mean.
  assert (K : group_keys df = group_keys df').
  { destruct (group_keys_spec df) as [S1 I1].
    destruct (group_keys_spec df') as [S2 I2].
    apply (sorted_unique _ _ S1 S2). intros k. rewrite I1, I2.
    split; intros (r & Hr & E); exists r; (split; [|exact E]).
    - apply (Permutation_in _ P Hr).
    - apply (Permutation_in _ (Permutation_sym P) Hr). }
  rewrite K. apply map_ext. intros k. f_equal. unfold meanQ, len.
  destruct (group_perm (fun r => key_eqb (row_key r) k) df df' P)
    as [-> ->].
  reflexivity.
Qed.

(** X12.  The speedup chart does not depend on the order of the rows of
    the results file: rows in another order give the same groups, in the
    same order, with the same speedups, or the same exit. *)
Theorem speedup_ignores_row_order :
  forall (df df' : list row),
    Permutation df df' -> speedup df = speedup df'.
Proof.
  intros df df' P. unfold speedup.
  rewrite (groupby_mean_perm df df' P). reflexivity.
Qed.

Lemma speedup_ignores_row_order_witness :
  speedup Examples.results_csv = speedup (rev Examples.results_csv).
Proof.
  apply (speedup_ignores_row_order Examples.results_csv
           (rev Examples.results_csv)).
  apply Permutation_rev.
Defined.

Lemma filter_seq_key (l : list (key * Q)) :
  filter (fun km => key_eqb (fst km) seq_key) l = []
  <-> ~ In seq_key (map fst l).
Proof.
  induction l as [|[k m] l IH]; cbn [filter map In fst].
  - tauto.
  - destruct (key_eqb k seq_key) eqn:E.
    + apply key_eqb_eq in E. split; [discriminate|].
      intros H. exfalso. apply H. left. exact E.
    + rewrite IH. split; [|tauto].
      intros H [H' | H']; [|exact (H H')].
      apply key_eqb_eq in H'. congruence.
Qed.

(** X13.  The speedup chart exits with status 2 exactly when the file has
    no row of version ["seq"] with 1 thread, and it fails in no other
    way.  Otherwise it has one bar for every pair of version and thread
    count that occurs in a row, each pair once, in increasing order of
    version and then thread count. *)
Theorem speedup_bars_cover_configurations :
  forall (df : list row),
    (speedup df = Raise (SystemExit 2)
     <-> ~ exists r, In r df /\ version r = lit "seq" /\ threads r = 1%Z)
    /\ (forall e, speedup df = Raise e -> e = SystemExit 2)
    /\ (forall sp, speedup df = Ok sp ->
          StronglySorted klt (map fst sp)
          /\ NoDup (map fst sp)
          /\ (forall v t, In (v, t) (map fst sp)
                <-> exists r, In r df /\ version r = v /\ threads r = t)).
Proof.
  intros df.
  destruct (group_keys_spec df) as [S I].
  pose proof (groupby_mean_keys df) as K.
  pose proof (filter_seq_key (groupby_mean df)) as F. rewrite K in F.
  assert (R : forall v t,
             (exists r, In r df /\ row_key r = (v, t))
             <-> exists r, In r df /\ version r = v /\ threads r = t).
  { intros v t. unfold row_key.
    split; intros (r & Hr & E); exists r; (split; [exact Hr|]).
    - injection E as E1 E2. split; assumption.
    - destruct E as [-> ->]. reflexivity. }
  unfold speedup.
  destruct (filter (fun km => key_eqb (fst km) seq_key) (groupby_mean df))
    as [|[k0 seq_mean] rest] eqn:Ef.
  - split; [|split].
    + split; [|reflexivity]. intros _ H.
      apply (proj1 F eq_refl). apply I. apply R. exact H.
    + intros e [= <-]. reflexivity.
    + intros sp H. discriminate H.
  - split; [|split].
    + split; [discriminate|]. intros H. exfalso. apply H.
      apply R. apply I.
      destruct (existsb (key_eqb seq_key) (group_keys df)) eqn:X.
      * apply existsb_key_in, X.
      * assert (N : ~ In seq_key (group_keys df)).
        { intros Y. apply existsb_key_in in Y. congruence. }
        apply (proj2 F) in N. discriminate N.
    + intros e H. discriminate H.
    + intros sp [= <-]. rewrite map_map. cbn [fst].
      change (map (fun x : key * Q => fst x) (groupby_mean df))
        with (map fst (groupby_mean df)).
      rewrite K. split; [exact S|]. split; [apply group_keys_nodup|].
      intros v t. rewrite I. apply R.
Qed.

End SpeedupFacts.

(** ** The runs of the benchmark *)

Module BenchFacts.

Import PyStr Py BenchRun.

Lemma shown_line_ok (out : str) :
  exists line,
    shown_line out = Ok line
    /\ (strip out = [] -> line = [])
    /\ (strip out <> [] -> FindOptThreads.last_line out = Ok line).
Proof.
  unfold shown_line, FindOptThreads.last_line.
  destruct (strip out) as [|c s] eqn:E.
  - exists []. split; [reflexivity|]. split; [reflexivity|].
    intros H. contradiction.
  - destruct (last_item (splitlines (c :: s))) as [line|] eqn:L.
    + exists line. split; [reflexivity|]. split; [discriminate|].
      reflexivity.
    + exfalso. apply AdapterEdges.last_item_none in L.
      apply (AdapterEdges.splitlines_from_nonempty (c :: s) []);
        [right; discriminate | exact L].
Qed.

Section WithProcess.

Variable java : nat -> command -> completed_process.

(** What [bench_once] does, whatever the process does. *)
Lemma bench_once_spec :
  forall (mc md output_path : str) (threads : option Z) (w : bworld),
    exists line,
      bench_once java mc md output_path threads w
      = ({| runs := runs w
                    ++ [{| main_class := mc; mode := md;
                           output := output_path; nthreads := threads |}];
            shown :=
              shown w
              ++ [let cmd := {| main_class := mc; mode := md;
                                output := output_path;
                                nthreads := threads |} in
                  let res := java (length (runs w)) cmd in
                  if (returncode res =? 0)%Z then BLine line
                  else BExecError cmd (stdout res) (stderr res)] |},
         Ok (returncode
               (java (length (runs w))
                  {| main_class := mc; mode := md; output := output_path;
                     nthreads := threads |}) =? 0)%Z)
      /\ (strip (stdout
                   (java (length (runs w))
                      {| main_class := mc; mode := md;
                         output := output_path; nthreads := threads |}))
          = [] -> line = [])
      /\ (strip (stdout
                   (java (length (runs w))
                      {| main_class := mc; mode := md;
                         output := output_path; nthreads := threads |}))
          <> [] ->
          FindOptThreads.last_line
            (stdout
               (java (length (runs w))
                  {| main_class := mc; mode := md; output := output_path;
                     nthreads := threads |}))
          = Ok line).
Proof.
  intros mc md output_path threads w.
  set (cmd := {| main_class := mc; mode := md; output := output_path;
                 nthreads := threads |}).
  set (res := java (length (runs w)) cmd).
  destruct (shown_line_ok (stdout res)) as (line & E & H1 & H2).
  exists line. split; [|split; assumption].
  unfold bench_once, bbind, run_command, bprint, blift, bret.
  fold cmd. fold res. cbv zeta.
  destruct (returncode res =? 0)%Z; cbn [negb runs shown].
  - rewrite E. reflexivity.
  - reflexivity.
Qed.



Lemma good_runs_le (cs : list command) :
  forall k, (good_runs java k cs <= length cs)%nat.
Proof.
  induction cs as [|c cs IH]; intros k; cbn [good_runs length]; [lia|].
  destruct (returncode (java k c) =? 0)%Z; [|lia].
  specialize (IH (S k)). lia.
Qed.

Lemma good_runs_app (cs1 cs2 : list command) :
  forall k,
    good_runs java k (cs1 ++ cs2)
    = if (good_runs java k cs1 <? length cs1)%nat
      then good_runs java k cs1
      else (length cs1 + good_runs java (k + length cs1) cs2)%nat.
Proof.
  induction cs1 as [|c cs1 IH]; intros k; cbn [good_runs length app].
  - rewrite Nat.add_0_r. reflexivity.
  - destruct (returncode (java k c) =? 0)%Z; [|reflexivity].
    rewrite IH.
    change (S (good_runs java (S k) cs1) <? S (length cs1))%nat
      with (good_runs java (S k) cs1 <? length cs1)%nat.
    destruct (good_runs java (S k) cs1 <? length cs1)%nat; [reflexivity|].
    replace (k + S (length cs1))%nat with (S k + length cs1)%nat by lia.
    reflexivity.
Qed.

Lemma runs_in_order_seq (m1 m2 : BM unit) (cs1 cs2 : list command) :
  runs_in_order java m1 cs1 -> runs_in_order java m2 cs2 ->
  runs_in_order java (bbind m1 (fun _ => m2)) (cs1 ++ cs2).
Proof.
  intros H1 H2 w. unfold bbind.
  destruct (H1 w) as (sh1 & E1). rewrite E1.
  rewrite good_runs_app, length_app.
  pose proof (good_runs_le cs1 (length (runs w))) as L1.
  destruct (Nat.ltb_spec (good_runs java (length (runs w)) cs1)
              (length cs1)) as [Lt | Ge].
  - exists sh1. rewrite firstn_app.
    replace (S (good_runs java (length (runs w)) cs1) - length cs1)%nat
      with 0%nat by lia.
    cbn [firstn]. rewrite app_nil_r.
    replace (good_runs java (length (runs w)) cs1
             <? length cs1 + length cs2)%nat with true
      by (symmetry; apply Nat.ltb_lt; lia).
    reflexivity.
  - assert (E : good_runs java (length (runs w)) cs1 = length cs1) by lia.
    rewrite E. rewrite firstn_all2 by lia.
    destruct (H2 {| runs := runs w ++ cs1; shown := sh1 |}) as (sh2 & E2).
    rewrite E2. cbn [runs]. rewrite length_app.
    exists sh2. f_equal.
    + f_equal. rewrite <- app_assoc. f_equal.
      rewrite firstn_app. rewrite (@firstn_all2 _ _ cs1) by lia.
      replace (S (length cs1
                  + good_runs java (length (runs w) + length cs1) cs2)
               - length cs1)%nat
        with (S (good_runs java (length (runs w) + length cs1) cs2))
        by lia.
      reflexivity.
    + destruct (Nat.ltb_spec
                  (good_runs java (length (runs w) + length cs1) cs2)
                  (length cs2)) as [Lt2 | Ge2].
      * replace (length cs1
                 + good_runs java (length (runs w) + length cs1) cs2
                 <? length cs1 + length cs2)%nat with true
          by (symmetry; apply Nat.ltb_lt; lia).
        reflexivity.
      * replace (length cs1
                 + good_runs java (length (runs w) + length cs1) cs2
                 <? length cs1 + length cs2)%nat with false
          by (symmetry; apply Nat.ltb_ge; lia).
        reflexivity.
Qed.

Lemma bench_loop_runs (s : scenario) (mc md output_path : str)
    (threads : option Z) (idxs : list Z) :
  runs_in_order java
    (bench_loop java s mc md output_path threads idxs)
    (repeat {| main_class := mc; mode := md; output := output_path;
               nthreads := threads |} (length idxs)).
Proof.
  set (cmd := {| main_class := mc; mode := md; output := output_path;
                 nthreads := threads |}).
  induction idxs as [|i rest IH]; intros w.
  - exists (shown w). cbn. rewrite app_nil_r. destruct w. reflexivity.
  - cbn [bench_loop length repeat good_runs].
    unfold bbind at 1, bprint at 1. unfold bbind at 1.
    destruct (bench_once_spec mc md output_path threads
                {| runs := runs w;
                   shown := shown w ++ [BIter s i ITERATIONS] |})
      as (line & E & _).
    cbn [runs shown] in E. fold cmd in E. rewrite E. clear E.
    destruct (returncode (java (length (runs w)) cmd) =? 0)%Z;
      cbn [negb].
    + match goal with
      | |- context [bench_loop java s mc md output_path threads rest ?w1] =>
          destruct (IH w1) as (sh & E)
      end.
      rewrite E. cbn [runs]. rewrite length_app. cbn [length].
      rewrite Nat.add_1_r.
      exists sh. cbn [firstn]. rewrite <- app_assoc. reflexivity.
    + eexists. unfold braise. cbn [firstn]. reflexivity.
Qed.

Lemma benchmark_runs_in_order (mc : str) :
  runs_in_order java (benchmark_runs java mc) (plan mc).
Proof.
  unfold benchmark_runs, plan.
  apply runs_in_order_seq; [apply (bench_loop_runs SEQ)|].
  apply runs_in_order_seq; [apply (bench_loop_runs PAR5)
                           | apply (bench_loop_runs PAR10)].
Qed.

Lemma good_runs_all (d : command) (cs : list command) :
  forall k,
    (forall j, (j < length cs)%nat ->
       returncode (java (k + j) (nth j cs d)) = 0%Z) ->
    good_runs java k cs = length cs.
Proof.
  induction cs as [|c cs IH]; intros k H; cbn [good_runs length];
    [reflexivity|].
  pose proof (H 0%nat ltac:(cbn; lia)) as H0.
  rewrite Nat.add_0_r in H0. cbn [nth] in H0. rewrite H0. cbn [Z.eqb].
  f_equal. apply IH. intros j Hj.
  specialize (H (S j) ltac:(cbn; lia)). cbn [nth] in H.
  replace (S k + j)%nat with (k + S j)%nat by lia. exact H.
Qed.

Lemma good_runs_first_failure (d : command) (cs : list command) :
  forall k j0,
    (j0 < length cs)%nat ->
    (forall j, (j < j0)%nat ->
       returncode (java (k + j) (nth j cs d)) = 0%Z) ->
    returncode (java (k + j0) (nth j0 cs d)) <> 0%Z ->
    good_runs java k cs = j0.
Proof.
  induction cs as [|c cs IH]; intros k j0 Hl H Hf; cbn [length] in Hl;
    [lia|].
  cbn [good_runs]. destruct j0 as [|j0].
  - rewrite Nat.add_0_r in Hf. cbn [nth] in Hf.
    apply Z.eqb_neq in Hf. rewrite Hf. reflexivity.
  - pose proof (H 0%nat ltac:(lia)) as H0.
    rewrite Nat.add_0_r in H0. cbn [nth] in H0. rewrite H0. cbn [Z.eqb].
    f_equal. apply IH.
    + lia.
    + intros j Hj. specialize (H (S j) ltac:(lia)). cbn [nth] in H.
      replace (S k + j)%nat with (k + S j)%nat by lia. exact H.
    + cbn [nth] in Hf.
      replace (S k + j0)%nat with (k + S j0)%nat by lia. exact Hf.
Qed.

(** X15.  When each of the 30 runs exits with status 0, [run_benchmark]
    runs exactly its plan: 10 times the sequential command, then 10 times
    the parallel command with 5 threads, then 10 times the one with 10
    threads, and it returns. *)
Theorem benchmark_runs_whole_plan :
  forall (mc : str),
    (forall j, (j < 30)%nat ->
       returncode (java j (nth j (plan mc) (seq_command mc))) = 0%Z) ->
    exists sh,
      benchmark_runs java mc b0
      = ({| runs := repeat (seq_command mc) 10
                    ++ repeat (par_command mc 5 "primes_t5.txt") 10
                    ++ repeat (par_command mc 10 "primes_t10.txt") 10;
            shown := sh |}, Ok tt).
Proof.
  intros mc H.
  destruct (benchmark_runs_in_order mc b0) as (sh & E).
  cbn [runs b0 length app] in E.
  rewrite (good_runs_all (seq_command mc) (plan mc) 0) in E
    by (intros j Hj; apply H; exact Hj).
  rewrite Nat.ltb_irrefl in E. rewrite firstn_all2 in E by lia.
  exists sh. exact E.
Qed.

(** X16.  When run number [k] (from 0) of the plan is the first that
    exits with a status other than 0, [run_benchmark] has made the first
    [k + 1] runs of the plan, makes no further run and exits with
    status 2. *)
Theorem benchmark_runs_stop_at_first_failure :
  forall (mc : str) (k : nat),
    (k < 30)%nat ->
    (forall j, (j < k)%nat ->
       returncode (java j (nth j (plan mc) (seq_command mc))) = 0%Z) ->
    returncode (java k (nth k (plan mc) (seq_command mc))) <> 0%Z ->
    exists sh,
      benchmark_runs java mc b0
      = ({| runs := firstn (S k) (plan mc); shown := sh |},
         Raise (SystemExit 2))
      /\ length (firstn (S k) (plan mc)) = S k.
Proof.
  intros mc k Hk H Hf.
  destruct (benchmark_runs_in_order mc b0) as (sh & E).
  cbn [runs b0 length app] in E.
  assert (L : length (plan mc) = 30%nat) by reflexivity.
  rewrite (good_runs_first_failure (seq_command mc) (plan mc) 0 k) in E;
    [| lia | exact H | exact Hf].
  rewrite L in E.
  replace (k <? 30)%nat with true in E by (symmetry; apply Nat.ltb_lt; lia).
  exists sh. split; [exact E|].
  rewrite length_firstn, L. lia.
Qed.

End WithProcess.

Lemma benchmark_runs_whole_plan_witness :
  exists sh,
    benchmark_runs (fun _ _ => Examples.printed "Tempo: 5 ms")
      (lit "app.Main") b0
    = ({| runs := repeat (seq_command (lit "app.Main")) 10
                  ++ repeat (par_command (lit "app.Main") 5
                               "primes_t5.txt") 10
                  ++ repeat (par_command (lit "app.Main") 10
                               "primes_t10.txt") 10;
          shown := sh |}, Ok tt).
Proof.
  apply (benchmark_runs_whole_plan
           (fun _ _ => Examples.printed "Tempo: 5 ms") (lit "app.Main")).
  intros j Hj. reflexivity.
Defined.

Lemma benchmark_runs_stop_at_first_failure_witness :
  exists sh,
    benchmark_runs
      (fun k _ => if (k =? 12)%nat then Examples.crashed
                  else Examples.printed "Tempo: 5 ms")
      (lit "app.Main") b0
    = ({| runs := firstn 13 (plan (lit "app.Main")); shown := sh |},
       Raise (SystemExit 2))
    /\ length (firstn 13 (plan (lit "app.Main"))) = 13%nat.
Proof.
  apply (benchmark_runs_stop_at_first_failure
           (fun k _ => if (k =? 12)%nat then Examples.crashed
                       else Examples.printed "Tempo: 5 ms")
           (lit "app.Main") 12).
  - lia.
  - intros j Hj.
    replace (j =? 12)%nat with false by (symmetry; apply Nat.eqb_neq; lia).
    reflexivity.
  - vm_compute. discriminate.
Defined.

End BenchFacts.

(** ** The main class that the two scripts detect *)

Module DetectFacts.

Import PyStr Py DetectMain.

Lemma startswith_contains (p s : str) :
  startswith p s = true -> contains p s = true.
Proof. intros H. destruct s; cbn [contains]; rewrite H; reflexivity. Qed.

(** X17.  Both scripts detect ["app.Main"] or ["src.Main"] and nothing
    else.  They detect the same class when a compiled [Main.class] exists,
    and when [src/app/Main.java] exists and its first line starts with
    ["package app"], or starts with ["package src"] and does not contain
    ["package app"]: one script tests the start of the line, the other
    looks for the text anywhere in it, ["package app"] first. *)
Theorem detect_main_class_agreement :
  forall (fs : filesystem),
    path_exists fs TargetAppMainClass = true
    \/ path_exists fs TargetSrcMainClass = true
    \/ (exists text first,
          path_exists fs SrcAppMainJava = true
          /\ read_text fs SrcAppMainJava = Some text
          /\ first_line text = Some first
          /\ (startswith (lit "package app") first = true
              \/ (startswith (lit "package src") first = true
                  /\ contains (lit "package app") first = false))) ->
    Fot.detect_main_class fs = Bap.detect_main_class fs
    /\ (Fot.detect_main_class fs = app_main
        \/ Fot.detect_main_class fs = src_main).
Proof.
  intros fs H.
  unfold Fot.detect_main_class, Bap.detect_main_class.
  destruct (path_exists fs TargetAppMainClass) eqn:A;
    [split; [reflexivity | left; reflexivity]|].
  destruct (path_exists fs TargetSrcMainClass) eqn:S;
    [split; [reflexivity | right; reflexivity]|].
  destruct H as [H | [H | (text & first & He & Hr & Hf & Hp)]];
    [discriminate H | discriminate H |].
  cbn [Fot.candidates_loop]. rewrite He. cbn [negb]. rewrite He.
  unfold inspect. rewrite Hr, Hf.
  destruct Hp as [Hp | [Hp Hn]].
  - rewrite Hp, (startswith_contains _ _ Hp).
    split; [reflexivity | left; reflexivity].
  - assert (Hq : startswith (lit "package app") first = false).
    { destruct (startswith (lit "package app") first) eqn:E;
        [|reflexivity].
      apply startswith_contains in E. congruence. }
    rewrite Hq, Hp, Hn, (startswith_contains _ _ Hp).
    split; [reflexivity | right; reflexivity].
Qed.

Lemma detect_main_class_agreement_witness :
  Fot.detect_main_class
    {| path_exists := fun p => match p with
                               | SrcAppMainJava => true
                               | _ => false
                               end;
       read_text := fun _ => Some (lit "package src;") |}
  = Bap.detect_main_class
      {| path_exists := fun p => match p with
                                 | SrcAppMainJava => true
                                 | _ => false
                                 end;
         read_text := fun _ => Some (lit "package src;") |}
  /\ (Fot.detect_main_class
        {| path_exists := fun p => match p with
                                   | SrcAppMainJava => true
                                   | _ => false
                                   end;
           read_text := fun _ => Some (lit "package src;") |}
      = app_main
      \/ Fot.detect_main_class
           {| path_exists := fun p => match p with
                                      | SrcAppMainJava => true
                                      | _ => false
                                      end;
              read_text := fun _ => Some (lit "package src;") |}
         = src_main).
Proof.
  apply (detect_main_class_agreement
           {| path_exists := fun p => match p with
                                      | SrcAppMainJava => true
                                      | _ => false
                                      end;
              read_text := fun _ => Some (lit "package src;") |}).
  right. right. exists (lit "package src;"), (lit "package src;").
  repeat split; try reflexivity.
  right. split; reflexivity.
Defined.

End DetectFacts.
